(** * Run assembly for the LLM training entry point ([src/llm/main.py])

    A shallow embedding of the configuration-wiring code of [main.py]:
    the batch-size arithmetic ([calculate_batch_size_info],
    [update_batch_size_info]), the name-keyed builders ([build_logger],
    [build_callback], [build_algorithm], [build_optimizer],
    [build_scheduler], [build_composer_model], [build_dataloader]) and the
    evaluator assembly ([get_evaluators]).

    Conventions of the embedding.
    - Configuration scalars are Python values: [None], [bool], [int],
      [str] and lists of those.  Python [int] is unbounded, hence [Z];
      [//] and [%] are floor division and its remainder, which is what
      [Z.div] and [Z.modulo] compute for a non-zero divisor.  Floating
      point scalars are not part of the value universe.
    - A configuration node (OmegaConf [DictConfig]) is a finite map from
      keys to values; [key in cfg] is key presence, [cfg.key = v] is
      insertion.
    - Exceptions are explicit: a computation returns either a value or
      the exception it raised.  [assert] is executed (the interpreter is
      not run with [-O]).
    - Effects are explicit: lines written by [print] and calls into the
      external libraries (Composer, the dataset and model packages) are
      appended to a trace that is threaded through every computation. *)

From Stdlib Require Import ZArith String Ascii List Lia.
From stdpp Require Import base option gmap strings list pretty.

Set Warnings "-register-all".

Open Scope string_scope.
Open Scope list_scope.
Open Scope Z_scope.

(** ** Python values *)

Inductive value :=
| VNone
| VBool (b : bool)
| VInt (z : Z)
| VStr (s : string)
| VList (l : list value).

(** Exceptions, by class.  Only [ValueError] and [KeyError] carry the text
    that [main.py] itself puts into them; [External] stands for whatever an
    external constructor raises. *)
Inductive exn :=
| ValueError (msg : string)
| AssertionError
| ZeroDivisionError
| TypeError
| KeyError (key : string)
| AttributeError (attr : string)
| External (what : string).

(** [isinstance(v, int)]: [bool] is a subclass of [int], [True] is 1. *)
Definition as_int (v : value) : option Z :=
  match v with
  | VInt z => Some z
  | VBool b => Some (if b then 1 else 0)
  | _ => None
  end.

(** [v == 'literal']: a [str] compares equal only to an equal [str]. *)
Definition py_eq_str (v : value) (lit : string) : bool :=
  match v with
  | VStr s => bool_decide (s = lit)
  | _ => false
  end.

(** Truth value of [v], as [assert], [and] and [if] take it. *)
Definition truthy (v : value) : bool :=
  match v with
  | VNone => false
  | VBool b => b
  | VInt z => negb (z =? 0)
  | VStr s => negb (bool_decide (s = ""))
  | VList l => match l with [] => false | _ => true end
  end.

(** *** [repr] and [str] *)

Definition dquote : ascii := ascii_of_nat 34.
Definition squote : ascii := "'"%char.
Definition backslash : ascii := ascii_of_nat 92.

Definition hex_digit (n : nat) : ascii :=
  ascii_of_nat (if n <? 10 then 48 + n else 87 + n)%nat.

Fixpoint string_mem (c : ascii) (s : string) : bool :=
  match s with
  | EmptyString => false
  | String d s' => if Ascii.eqb c d then true else string_mem c s'
  end.

(** One character of [repr(str)]: the quote in use and the backslash are
    escaped, control characters are written [\t], [\n], [\r] or [\xhh]. *)
Definition repr_char (quote c : ascii) : string :=
  let n := nat_of_ascii c in
  if Ascii.eqb c quote || Ascii.eqb c backslash then String backslash (String c "")
  else if (n =? 9)%nat then String backslash "t"
  else if (n =? 10)%nat then String backslash "n"
  else if (n =? 13)%nat then String backslash "r"
  else if (n <? 32)%nat || (n =? 127)%nat
       then String backslash
              (String "x" (String (hex_digit (n / 16)) (String (hex_digit (n mod 16)) "")))
  else String c "".

Fixpoint repr_chars (quote : ascii) (s : string) : string :=
  match s with
  | EmptyString => ""
  | String c s' => repr_char quote c +:+ repr_chars quote s'
  end.

(** [repr] of a [str]: single quotes, unless the text has a single quote
    and no double quote. *)
Definition repr_str (s : string) : string :=
  let quote := if string_mem squote s && negb (string_mem dquote s)
               then dquote else squote in
  String quote (repr_chars quote s +:+ String quote "").

Fixpoint py_repr (v : value) : string :=
  match v with
  | VNone => "None"
  | VBool b => if b then "True" else "False"
  | VInt z => pretty z
  | VStr s => repr_str s
  | VList l =>
      "[" +:+ (fix items (l : list value) : string :=
                match l with
                | [] => ""
                | [x] => py_repr x
                | x :: l' => py_repr x +:+ ", " +:+ items l'
                end) l +:+ "]"
  end.

(** [str(v)], which is what a plain [{v}] in an f-string inserts. *)
Definition py_str (v : value) : string :=
  match v with
  | VStr s => s
  | _ => py_repr v
  end.

(** ** Computations: a trace of effects and an outcome *)

Inductive event :=
| Printed (line : string)
| Called (callee : string) (args : list (string * value)).

Inductive outcome (A : Type) :=
| Ok (a : A)
| Raise (e : exn).
Arguments Ok {A} a.
Arguments Raise {A} e.

Definition M (A : Type) : Type := list event → list event * outcome A.

#[global] Instance M_ret : MRet M := λ A a tr, (tr, Ok a).
#[global] Instance M_bind : MBind M := λ A B f m tr,
  match m tr with
  | (tr', Ok a) => f a tr'
  | (tr', Raise e) => (tr', Raise e)
  end.

Definition raise {A} (e : exn) : M A := λ tr, (tr, Raise e).
Definition emit (ev : event) : M unit := λ tr, (tr ++ [ev], Ok tt).
Definition print (line : string) : M unit := emit (Printed line).

(** [try: body except: handler] with a bare [except], which catches every
    exception. *)
Definition try_except {A} (body : M A) (handler : M A) : M A := λ tr,
  match body tr with
  | (tr', Ok a) => (tr', Ok a)
  | (tr', Raise _) => handler tr'
  end.

(** ** Batch sizes *)

Definition not_divisible_msg (global_batch_size : value) (world_size : Z) : string :=
  "Global batch size " +:+ py_str global_batch_size +:+ " is not divisible by "
  +:+ pretty world_size
  +:+ " as a result, the batch size would be truncated, please adjust `global_batch_size` "
  +:+ "to be divisible by world size, " +:+ pretty world_size +:+ ".".

Definition clamp_warning (device_microbatch_size : value) (device_batch_size : Z) : string :=
  "WARNING: device_microbatch_size > device_batch_size, "
  +:+ "will be reduced from " +:+ py_str device_microbatch_size +:+ " -> "
  +:+ pretty device_batch_size +:+ ".".

Definition not_parsable_msg (device_microbatch_size : value) : string :=
  "Not sure how to parse device_microbatch_size=" +:+ py_repr device_microbatch_size.

(** [a % b] and [a // b] on [int] operands. *)
Definition py_mod (a b : Z) : M Z :=
  if b =? 0 then raise ZeroDivisionError else mret (a mod b).
Definition py_floordiv (a b : Z) : M Z :=
  if b =? 0 then raise ZeroDivisionError else mret (a / b).

(** [calculate_batch_size_info(global_batch_size, device_microbatch_size)];
    [world_size] is what [dist.get_world_size()] returns.  The result is the
    triple [(device_batch_size, device_microbatch_size, device_grad_accum)].
    A [global_batch_size] that is not an [int] is reported as [TypeError]
    (for a [str] Python would attempt [%]-formatting, which is not
    embedded). *)
Definition calculate_batch_size_info (world_size : Z)
    (global_batch_size device_microbatch_size : value) : M (Z * value * value) :=
  match as_int global_batch_size with
  | None => raise TypeError
  | Some g =>
      r ← py_mod g world_size;
      if negb (r =? 0) then
        raise (ValueError (not_divisible_msg global_batch_size world_size))
      else
        device_batch_size ← py_floordiv g world_size;
        if py_eq_str device_microbatch_size "auto" then
          mret (device_batch_size, device_microbatch_size, VStr "auto")
        else
          match as_int device_microbatch_size with
          | Some m =>
              '(device_microbatch_size, m) ←
                (if m >? device_batch_size then
                   _ ← print (clamp_warning device_microbatch_size device_batch_size);
                   mret (VInt device_batch_size, device_batch_size)
                 else mret (device_microbatch_size, m));
              device_grad_accum ← py_floordiv device_batch_size m;
              mret (device_batch_size, device_microbatch_size, VInt device_grad_accum)
          | None => raise (ValueError (not_parsable_msg device_microbatch_size))
          end
  end.

(** Attribute access [cfg.key] on a configuration node. *)
Definition getattr (cfg : gmap string value) (key : string) : M value :=
  match cfg !! key with
  | Some v => mret v
  | None => raise (AttributeError key)
  end.

(** [update_batch_size_info(cfg)]: the node is updated in place and
    returned; here the updated node is the result. *)
Definition update_batch_size_info (world_size : Z) (cfg : gmap string value)
    : M (gmap string value) :=
  global_train_batch_size ← getattr cfg "global_train_batch_size";
  device_train_microbatch_size ← getattr cfg "device_train_microbatch_size";
  '(device_train_batch_size, device_train_microbatch_size, device_train_grad_accum) ←
    calculate_batch_size_info world_size global_train_batch_size device_train_microbatch_size;
  let cfg := <["n_gpus" := VInt world_size]> cfg in
  let cfg := <["device_train_batch_size" := VInt device_train_batch_size]> cfg in
  let cfg := <["device_train_microbatch_size" := device_train_microbatch_size]> cfg in
  let cfg := <["device_train_grad_accum" := device_train_grad_accum]> cfg in
  match cfg !! "device_eval_batch_size" with
  | None =>
      m ← getattr cfg "device_train_microbatch_size";
      if py_eq_str m "auto" then
        mret (<["device_eval_batch_size" := VInt 1]> cfg)
      else
        m ← getattr cfg "device_train_microbatch_size";
        mret (<["device_eval_batch_size" := m]> cfg)
  | Some _ => mret cfg
  end.

(** ** The external libraries *)

(** Objects built by the external libraries are opaque; they are known by
    their identity only. *)
Definition obj := N.

(** The tokenizer object, of which [main.py] reads
    [tokenizer.tokenizer.eos_token_id]. *)
Record Tokenizer := {
  tok_obj : obj;
  eos_token_id : value
}.

(** What the imported constructors, tables and helpers do on given
    arguments: return an object or raise.  The two registries are imported
    tables from names to builders. *)
Record externals := {
  WandBLogger : gmap string value → outcome obj;
  LRMonitor : outcome obj;
  MemoryMonitor : outcome obj;
  SpeedMonitor : value → outcome obj;
  OptimizerMonitor : value → outcome obj;
  GradientClipping : gmap string value → outcome obj;
  model_parameters : obj → outcome obj;
  DecoupledAdamW : obj → value → value → value → value → outcome obj;
  ConstantWithWarmupScheduler : value → outcome obj;
  CosineAnnealingWithWarmupScheduler : value → value → outcome obj;
  COMPOSER_MODEL_REGISTRY : gmap string (gmap string value → outcome obj);
  TOKENIZER_REGISTRY : gmap string (gmap string value → outcome obj);
  build_text_dataloader : gmap string value → value → outcome obj;
  get_lm_task_dataloader : value → Tokenizer → Z → value → value → outcome obj;
  (** [str(cfg)] of a configuration node, as OmegaConf renders it *)
  str_of_cfg : gmap string value → string
}.

(** A call into an external library: it is recorded in the trace with the
    configuration values it was given (by parameter name; object arguments
    are not recorded), and it yields what the library yields. *)
Definition external (callee : string) (args : list (string * value))
    (result : outcome obj) : M obj :=
  λ tr, (tr ++ [Called callee args], result).

(** [table[key]] on an imported name-to-builder table; [KeyError] carries
    the [repr] of the key, which is the text Python reports. *)
Definition getitem {B} (table : gmap string B) (key : value) : M B :=
  match key with
  | VStr s =>
      match table !! s with
      | Some b => mret b
      | None => raise (KeyError (py_repr key))
      end
  | VList _ => raise TypeError
  | _ => raise (KeyError (py_repr key))
  end.

(** [d.get(key, dflt)] *)
Definition dict_get (d : gmap string value) (key : string) (dflt : value) : value :=
  default dflt (d !! key).

(** [a and b] *)
Definition py_and (a b : value) : value := if truthy a then b else a.

(** [assert v] *)
Definition py_assert (v : value) : M unit :=
  if truthy v then mret tt else raise AssertionError.

(** [list(v)]: a list is copied, a [str] is split into its characters,
    the other values are not iterable. *)
Definition py_list (v : value) : M (list value) :=
  match v with
  | VList l => mret l
  | VStr s => mret ((λ c, VStr (String c "")) <$> list_ascii_of_string s)
  | _ => raise TypeError
  end.

(** [max(4, b)] on [int]s *)
Definition py_max4 (b : Z) : Z := if b >? 4 then b else 4.

(** Composer's [Evaluator]: a label, a data source and the metric names. *)
Record Evaluator := {
  label : value;
  dataloader : obj;
  metric_names : list value
}.

Section Builders.
Variable ext : externals.

(** *** Evaluators *)

(** The body of the [for] loop of [get_evaluators], [evals] being the
    list built so far. *)
Fixpoint get_evaluators_loop (cfg : list (gmap string value)) (tokenizer : Tokenizer)
    (batch_size : Z) (seqlen : value) (evals : list Evaluator) : M (list Evaluator) :=
  match cfg with
  | [] => mret evals
  | icl_task :: cfg' =>
      let dataset_uri := dict_get icl_task "dataset_uri" VNone in
      let name := dict_get icl_task "name" VNone in
      let metric_names := dict_get icl_task "metric_names" VNone in
      _ ← py_assert (py_and (py_and dataset_uri name) metric_names);
      dl ← external "get_lm_task_dataloader"
             [("dataset_uri", dataset_uri); ("batch_size", VInt (py_max4 batch_size));
              ("max_seq_len", seqlen); ("eos_tok_id", eos_token_id tokenizer)]
             (get_lm_task_dataloader ext dataset_uri tokenizer (py_max4 batch_size)
                seqlen (eos_token_id tokenizer));
      names ← py_list metric_names;
      let evaluator := {| label := name; dataloader := dl; metric_names := names |} in
      get_evaluators_loop cfg' tokenizer batch_size seqlen (evals ++ [evaluator])
  end.

Definition get_evaluators (cfg : list (gmap string value)) (tokenizer : Tokenizer)
    (batch_size : Z) (seqlen : value) : M (list Evaluator) :=
  get_evaluators_loop cfg tokenizer batch_size seqlen [].

(** *** Builders dispatched on a name *)

Definition build_logger (name : string) (kwargs : gmap string value) : M obj :=
  if bool_decide (name = "wandb") then
    external "WandBLogger" (map_to_list kwargs) (WandBLogger ext kwargs)
  else
    raise (ValueError ("Not sure how to build logger: " +:+ name)).

Definition build_callback (name : string) (kwargs : gmap string value) : M obj :=
  if bool_decide (name = "lr_monitor") then
    external "LRMonitor" [] (LRMonitor ext)
  else if bool_decide (name = "memory_monitor") then
    external "MemoryMonitor" [] (MemoryMonitor ext)
  else if bool_decide (name = "speed_monitor") then
    let window_size := dict_get kwargs "window_size" (VInt 1) in
    external "SpeedMonitor" [("window_size", window_size)] (SpeedMonitor ext window_size)
  else if bool_decide (name = "optimizer_monitor") then
    let log_optimizer_metrics := dict_get kwargs "log_optimizer_metrics" VNone in
    external "OptimizerMonitor" [("log_optimizer_metrics", log_optimizer_metrics)]
      (OptimizerMonitor ext log_optimizer_metrics)
  else
    raise (ValueError ("Not sure how to build callback: " +:+ name)).

Definition build_algorithm (name : string) (kwargs : gmap string value) : M obj :=
  if bool_decide (name = "gradient_clipping") then
    external "GradientClipping" (map_to_list kwargs) (GradientClipping ext kwargs)
  else
    raise (ValueError ("Not sure how to build algorithm: " +:+ name)).

Definition build_optimizer (cfg : gmap string value) (model : obj) : M obj :=
  name ← getattr cfg "name";
  if py_eq_str name "decoupled_adamw" then
    params ← external "model.parameters" [] (model_parameters ext model);
    lr ← getattr cfg "lr";
    betas ← getattr cfg "betas";
    eps ← getattr cfg "eps";
    weight_decay ← getattr cfg "weight_decay";
    external "DecoupledAdamW"
      [("lr", lr); ("betas", betas); ("eps", eps); ("weight_decay", weight_decay)]
      (DecoupledAdamW ext params lr betas eps weight_decay)
  else
    name ← getattr cfg "name";
    raise (ValueError ("Not sure how to build optimizer: " +:+ py_str name)).

Definition build_scheduler (cfg : gmap string value) : M obj :=
  name ← getattr cfg "name";
  if py_eq_str name "constant_with_warmup" then
    t_warmup ← getattr cfg "t_warmup";
    external "ConstantWithWarmupScheduler" [("t_warmup", t_warmup)]
      (ConstantWithWarmupScheduler ext t_warmup)
  else
    name ← getattr cfg "name";
    if py_eq_str name "cosine_with_warmup" then
      t_warmup ← getattr cfg "t_warmup";
      alpha_f ← getattr cfg "alpha_f";
      external "CosineAnnealingWithWarmupScheduler"
        [("t_warmup", t_warmup); ("alpha_f", alpha_f)]
        (CosineAnnealingWithWarmupScheduler ext t_warmup alpha_f)
    else
      name ← getattr cfg "name";
      raise (ValueError ("Not sure how to build scheduler: " +:+ py_str name)).

(** [build_composer_model]: the table lookup and the builder call are
    inside a [try] whose bare [except] raises a [ValueError] of its own.
    (The [warnings.filterwarnings] call before it only silences a
    warning and is left out.) *)
Definition build_composer_model (cfg : gmap string value) : M obj :=
  try_except
    (name ← getattr cfg "name";
     builder ← getitem (COMPOSER_MODEL_REGISTRY ext) name;
     external "COMPOSER_MODEL_REGISTRY[cfg.name]" (map_to_list cfg) (builder cfg))
    (name ← getattr cfg "name";
     raise (ValueError ("Not sure how to build model with name=" +:+ py_str name))).

Definition build_dataloader (cfg : gmap string value) (device_batch_size : value) : M obj :=
  try_except
    (external "build_text_dataloader" [("device_batch_size", device_batch_size)]
       (build_text_dataloader ext cfg device_batch_size))
    (raise (ValueError ("Not sure how to build dataloader with config: "
                        +:+ str_of_cfg ext cfg))).

(** The tokenizer step of [main]: the builder found in
    [TOKENIZER_REGISTRY] under [cfg.tokenizer.type] is called with
    [cfg.tokenizer.args] as its keyword arguments. *)
Definition main_tokenizer (type : value) (args : gmap string value) : M obj :=
  builder ← getitem (TOKENIZER_REGISTRY ext) type;
  external "TOKENIZER_REGISTRY[cfg.tokenizer.type]" (map_to_list args) (builder args).

End Builders.

(** ** Vocabulary of the statements on evaluator assembly *)

(** The expression under [assert] in [get_evaluators]. *)
Definition assert_expr (icl_task : gmap string value) : value :=
  py_and (py_and (dict_get icl_task "dataset_uri" VNone) (dict_get icl_task "name" VNone))
         (dict_get icl_task "metric_names" VNone).

(** A task specification lacks a mandatory field. *)
Definition lacks_field (icl_task : gmap string value) : Prop :=
  icl_task !! "dataset_uri" = None ∨ icl_task !! "name" = None
  ∨ icl_task !! "metric_names" = None.

(** A mandatory field is present but empty. *)
Definition empty_field (icl_task : gmap string value) : Prop :=
  icl_task !! "dataset_uri" = Some (VStr "") ∨ icl_task !! "name" = Some (VStr "")
  ∨ icl_task !! "metric_names" = Some (VList []).

(** A valid task specification: a non-empty [dataset_uri] and [name], and
    a non-empty sequence of metric names. *)
Definition valid_task (icl_task : gmap string value) : bool :=
  match icl_task !! "dataset_uri", icl_task !! "name", icl_task !! "metric_names" with
  | Some (VStr uri), Some (VStr name), Some (VList names) =>
      negb (bool_decide (uri = "")) && negb (bool_decide (name = ""))
      && match names with [] => false | _ => true end
  | _, _, _ => false
  end.

(** The metric names a task declares. *)
Definition declared_metrics (icl_task : gmap string value) : list value :=
  match icl_task !! "metric_names" with
  | Some (VList names) => names
  | _ => []
  end.

(** What the data-source constructor yields for a task, at the batch size
    [max(4, batch_size)]. *)
Definition task_dataloader (ext : externals) (tokenizer : Tokenizer) (batch_size : Z)
    (seqlen : value) (icl_task : gmap string value) : outcome obj :=
  get_lm_task_dataloader ext (dict_get icl_task "dataset_uri" VNone) tokenizer
    (Z.max 4 batch_size) seqlen (eos_token_id tokenizer).

(** The trace entry of the data-source construction of a task. *)
Definition task_call (tokenizer : Tokenizer) (batch_size : Z) (seqlen : value)
    (icl_task : gmap string value) : event :=
  Called "get_lm_task_dataloader"
    [("dataset_uri", dict_get icl_task "dataset_uri" VNone);
     ("batch_size", VInt (Z.max 4 batch_size));
     ("max_seq_len", seqlen); ("eos_tok_id", eos_token_id tokenizer)].

(** The evaluator of a task, given its data source. *)
Definition task_evaluator (icl_task : gmap string value) (dl : obj) : Evaluator :=
  {| label := dict_get icl_task "name" VNone;
     dataloader := dl;
     metric_names := declared_metrics icl_task |}.

(** ** Vocabulary of the statements on component resolution *)

(** [needle] occurs in [msg]. *)
Fixpoint mentions (needle msg : string) : bool :=
  String.prefix needle msg
  || match msg with
     | EmptyString => false
     | String _ msg' => mentions needle msg'
     end.

(** The component categories that [main.py] resolves by name. *)
Inductive category :=
| Logger | Callback | Algorithm | Optimizer | Scheduler | Model | TokenizerCat.

Definition category_name (c : category) : string :=
  match c with
  | Logger => "logger"
  | Callback => "callback"
  | Algorithm => "algorithm"
  | Optimizer => "optimizer"
  | Scheduler => "scheduler"
  | Model => "model"
  | TokenizerCat => "tokenizer"
  end.

(** The names for which a category has a builder. *)
Definition registered (ext : externals) (c : category) (name : string) : bool :=
  match c with
  | Logger => bool_decide (name = "wandb")
  | Callback =>
      bool_decide (name = "lr_monitor") || bool_decide (name = "memory_monitor")
      || bool_decide (name = "speed_monitor") || bool_decide (name = "optimizer_monitor")
  | Algorithm => bool_decide (name = "gradient_clipping")
  | Optimizer => bool_decide (name = "decoupled_adamw")
  | Scheduler =>
      bool_decide (name = "constant_with_warmup") || bool_decide (name = "cosine_with_warmup")
  | Model => bool_decide (is_Some (COMPOSER_MODEL_REGISTRY ext !! name))
  | TokenizerCat => bool_decide (is_Some (TOKENIZER_REGISTRY ext !! name))
  end.

(** Resolution of the component [name] of category [c] with the
    configuration fragment [kwargs], as [main] does it: loggers, callbacks
    and algorithms get the name and the fragment, optimizer, scheduler and
    model read the name from the fragment itself, the tokenizer is looked
    up in its table.  [model] is the model object the optimizer is built
    for. *)
Definition resolve (ext : externals) (model : obj) (c : category) (name : string)
    (kwargs : gmap string value) : M obj :=
  match c with
  | Logger => build_logger ext name kwargs
  | Callback => build_callback ext name kwargs
  | Algorithm => build_algorithm ext name kwargs
  | Optimizer => build_optimizer ext (<["name" := VStr name]> kwargs) model
  | Scheduler => build_scheduler ext (<["name" := VStr name]> kwargs)
  | Model => build_composer_model ext (<["name" := VStr name]> kwargs)
  | TokenizerCat => main_tokenizer ext (VStr name) kwargs
  end.

(** The computation [m], started with trace [tr], ends by raising [e]. *)
Definition fails_with {A} (m : M A) (tr : list event) (e : exn) : Prop :=
  (m tr).2 = Raise e.

(** ** The component lists of [main] *)

(** The list comprehensions of [main] over the [(name, configuration)]
    items of a mapping, in the order of declaration:
    [[build(name, c) for name, c in items]].  The builds run left to right
    and the first exception ends the comprehension. *)
Fixpoint build_each (build : string → gmap string value → M obj)
    (items : list (string * gmap string value)) : M (list obj) :=
  match items with
  | [] => mret []
  | (name, kwargs) :: items' =>
      o ← build name kwargs;
      os ← build_each build items';
      mret (o :: os)
  end.

Definition main_loggers (ext : externals) (items : list (string * gmap string value))
    : M (list obj) :=
  build_each (build_logger ext) items.

Definition main_callbacks (ext : externals) (items : list (string * gmap string value))
    : M (list obj) :=
  build_each (build_callback ext) items.

Definition main_algorithms (ext : externals) (items : list (string * gmap string value))
    : M (list obj) :=
  build_each (build_algorithm ext) items.

(** The configuration that [update_batch_size_info] returns for a plan
    [(dbs, m, ga)]. *)
Definition updated_cfg (world_size : Z) (cfg : gmap string value)
    (dbs : Z) (m ga : value) : gmap string value :=
  let cfg4 :=
    <["device_train_grad_accum" := ga]>
      (<["device_train_microbatch_size" := m]>
         (<["device_train_batch_size" := VInt dbs]>
            (<["n_gpus" := VInt world_size]> cfg))) in
  match cfg !! "device_eval_batch_size" with
  | Some _ => cfg4
  | None => <["device_eval_batch_size" := if py_eq_str m "auto" then VInt 1 else m]> cfg4
  end.

(** The keys that [update_batch_size_info] writes. *)
Definition batch_keys : list string :=
  ["n_gpus"; "device_train_batch_size"; "device_train_microbatch_size";
   "device_train_grad_accum"; "device_eval_batch_size"].

(** ** Sample inputs *)

Definition sample_cfg (dms : value) : gmap string value :=
  <["global_train_batch_size" := VInt 1024]>
    (<["device_train_microbatch_size" := dms]> ∅).

(** An external world for the examples: every constructor succeeds, the
    model builder and the text data loader fail. *)
Definition sample_externals : externals := {|
  WandBLogger := λ _, Ok 1%N;
  LRMonitor := Ok 2%N;
  MemoryMonitor := Ok 3%N;
  SpeedMonitor := λ _, Ok 4%N;
  OptimizerMonitor := λ _, Ok 5%N;
  GradientClipping := λ _, Ok 6%N;
  model_parameters := λ _, Ok 7%N;
  DecoupledAdamW := λ _ _ _ _ _, Ok 8%N;
  ConstantWithWarmupScheduler := λ _, Ok 9%N;
  CosineAnnealingWithWarmupScheduler := λ _ _, Ok 10%N;
  COMPOSER_MODEL_REGISTRY := {[ "mosaic_gpt" := λ _, Raise (External "d_model is missing") ]};
  TOKENIZER_REGISTRY := {[ "hftokenizer" := λ _, Ok 11%N ]};
  build_text_dataloader := λ _ _, Raise (External "dataset not found");
  get_lm_task_dataloader := λ _ _ _ _ _, Ok 12%N;
  str_of_cfg := λ _, "{}"
|}.

(** The same world, in which the evaluation data cannot be loaded. *)
Definition sample_externals_no_data : externals := {|
  WandBLogger := WandBLogger sample_externals;
  LRMonitor := LRMonitor sample_externals;
  MemoryMonitor := MemoryMonitor sample_externals;
  SpeedMonitor := SpeedMonitor sample_externals;
  OptimizerMonitor := OptimizerMonitor sample_externals;
  GradientClipping := GradientClipping sample_externals;
  model_parameters := model_parameters sample_externals;
  DecoupledAdamW := DecoupledAdamW sample_externals;
  ConstantWithWarmupScheduler := ConstantWithWarmupScheduler sample_externals;
  CosineAnnealingWithWarmupScheduler := CosineAnnealingWithWarmupScheduler sample_externals;
  COMPOSER_MODEL_REGISTRY := COMPOSER_MODEL_REGISTRY sample_externals;
  TOKENIZER_REGISTRY := TOKENIZER_REGISTRY sample_externals;
  build_text_dataloader := build_text_dataloader sample_externals;
  get_lm_task_dataloader := λ _ _ _ _ _, Raise (External "dataset not found");
  str_of_cfg := str_of_cfg sample_externals
|}.

(** A task whose [metric_names] is the given value. *)
Definition sample_task_with (metrics : value) : gmap string value :=
  <["dataset_uri" := VStr "s3://lambada"]>
    (<["name" := VStr "lambada"]> (<["metric_names" := metrics]> ∅)).

Definition sample_scheduler_cfg : gmap string value :=
  <["name" := VStr "constant_with_warmup"]> (<["t_warmup" := VStr "100ba"]> ∅).

Definition sample_tokenizer : Tokenizer := {| tok_obj := 11%N; eos_token_id := VInt 0 |}.

Definition sample_task (uri name : string) (metrics : list string) : gmap string value :=
  <["dataset_uri" := VStr uri]>
    (<["name" := VStr name]> (<["metric_names" := VList (VStr <$> metrics)]> ∅)).

(** One step of a computation: the outermost bind. *)
Ltac step := unfold mbind at 1, M_bind at 1.

(** * Properties *)

(** ** Batch-size partitioning *)

Example partition_1024_8_256 :
  calculate_batch_size_info 8 (VInt 1024) (VInt 256) [] =
  ([Printed "WARNING: device_microbatch_size > device_batch_size, will be reduced from 256 -> 128."],
   Ok (128, VInt 128, VInt 1)).
Proof. vm_compute. reflexivity. Qed.

Example partition_1024_8_64 :
  calculate_batch_size_info 8 (VInt 1024) (VInt 64) [] = ([], Ok (128, VInt 64, VInt 2)).
Proof. vm_compute. reflexivity. Qed.

Example repr_samples :
  py_repr (VStr "abc") = "'abc'" ∧ py_repr (VStr "it's") = String dquote ("it's" +:+ String dquote "")
  ∧ py_repr (VInt (-12)) = "-12" ∧ py_repr (VList [VStr "a"; VInt 1]) = "['a', 1]".
Proof. vm_compute. repeat split. Qed.

Lemma py_max4_max b : py_max4 b = Z.max 4 b.
Proof. unfold py_max4. destruct (Z.gtb_spec b 4); lia. Qed.

Lemma py_eq_str_true v lit : py_eq_str v lit = true ↔ v = VStr lit.
Proof.
  destruct v; simpl; try (split; [discriminate | congruence]).
  rewrite bool_decide_eq_true. split; congruence.
Qed.

(** What [calculate_batch_size_info] does once the global batch size is
    known to be an [int] that the world size divides. *)
Lemma calculate_divisible (w g : Z) (dms : value) (tr : list event) :
  w ≠ 0 → g mod w = 0 →
  calculate_batch_size_info w (VInt g) dms tr =
    if py_eq_str dms "auto" then (tr, Ok (g / w, dms, VStr "auto"))
    else match as_int dms with
         | Some m =>
             if m >? g / w then
               (tr ++ [Printed (clamp_warning dms (g / w))],
                if g / w =? 0 then Raise ZeroDivisionError
                else Ok (g / w, VInt (g / w), VInt (g / w / (g / w))))
             else
               (tr, if m =? 0 then Raise ZeroDivisionError
                    else Ok (g / w, dms, VInt (g / w / m)))
         | None => (tr, Raise (ValueError (not_parsable_msg dms)))
         end.
Proof.
  intros Hw Hdiv.
  unfold calculate_batch_size_info, py_mod, py_floordiv; simpl.
  destruct (Z.eqb_spec w 0) as [|_]; [done|].
  unfold mbind, M_bind, mret, M_ret, raise; simpl.
  rewrite Hdiv; simpl.
  destruct (py_eq_str dms "auto"); [done|].
  destruct (as_int dms) as [m|]; [|done].
  destruct (m >? g / w); unfold print, emit; simpl.
  - destruct (g / w =? 0); done.
  - destruct (m =? 0); done.
Qed.

Lemma calculate_not_divisible (w g : Z) (dms : value) (tr : list event) :
  w ≠ 0 → g mod w ≠ 0 →
  calculate_batch_size_info w (VInt g) dms tr =
    (tr, Raise (ValueError (not_divisible_msg (VInt g) w))).
Proof.
  intros Hw Hdiv.
  unfold calculate_batch_size_info, py_mod; simpl.
  destruct (Z.eqb_spec w 0) as [|_]; [done|].
  unfold mbind, M_bind, mret, M_ret, raise; simpl.
  destruct (Z.eqb_spec (g mod w) 0); done.
Qed.

(** Whatever plan is returned, its device batch size is the exact quotient. *)
Lemma calculate_plan_batch (w g : Z) (dms : value) (tr tr' : list event) dbs m ga :
  w ≠ 0 → g mod w = 0 →
  calculate_batch_size_info w (VInt g) dms tr = (tr', Ok (dbs, m, ga)) →
  dbs = g / w.
Proof.
  intros Hw Hdiv. rewrite calculate_divisible by done.
  destruct (py_eq_str dms "auto"); [congruence|].
  destruct (as_int dms) as [k|]; [|congruence].
  destruct (k >? g / w).
  - destruct (g / w =? 0); congruence.
  - destruct (k =? 0); congruence.
Qed.

(** C1. If the world size does not divide the global batch size,
    [calculate_batch_size_info] raises the [ValueError] that reports the
    indivisibility, whatever the microbatch size, and so returns no plan.
    If it does, every plan returned has
    [device_batch_size * world_size = global_batch_size]; a plan is
    returned for ["auto"] and, when the device batch size is positive, for
    every positive microbatch size. *)
Theorem partition_divisibility (world_size g : Z) (dms : value) (tr : list event) :
  world_size ≠ 0 →
  (g mod world_size ≠ 0 →
     calculate_batch_size_info world_size (VInt g) dms tr =
       (tr, Raise (ValueError (not_divisible_msg (VInt g) world_size))))
  ∧ (g mod world_size = 0 →
     (∀ tr' dbs m ga,
        calculate_batch_size_info world_size (VInt g) dms tr = (tr', Ok (dbs, m, ga)) →
        dbs * world_size = g)
     ∧ (∃ m ga, calculate_batch_size_info world_size (VInt g) (VStr "auto") tr =
                  (tr, Ok (g / world_size, m, ga))
                ∧ g / world_size * world_size = g)
     ∧ (∀ k, 0 < k → 0 < g / world_size →
          ∃ tr' m ga, calculate_batch_size_info world_size (VInt g) (VInt k) tr =
                        (tr', Ok (g / world_size, m, ga)))).
Proof.
  intros Hw. split; [by apply calculate_not_divisible|].
  intros Hdiv.
  assert (g / world_size * world_size = g) as Hexact.
  { pose proof (Z.div_mod g world_size Hw). lia. }
  split; [|split].
  - intros tr' dbs m ga Hplan.
    apply calculate_plan_batch in Hplan; [|done..]. by subst.
  - exists (VStr "auto"), (VStr "auto"). by rewrite calculate_divisible.
  - intros k Hk Hpos. rewrite calculate_divisible by done. simpl.
    destruct (k >? g / world_size).
    + destruct (Z.eqb_spec (g / world_size) 0); [lia|]. eauto.
    + destruct (Z.eqb_spec k 0); [lia|]. eauto.
Qed.

Lemma partition_divisibility_witness :
  calculate_batch_size_info 8 (VInt 1001) (VInt 4) [] =
    ([], Raise (ValueError (not_divisible_msg (VInt 1001) 8)))
  ∧ ∀ tr' dbs m ga,
      calculate_batch_size_info 8 (VInt 1024) (VInt 64) [] = (tr', Ok (dbs, m, ga)) →
      dbs * 8 = 1024.
Proof.
  split.
  - apply (proj1 (partition_divisibility 8 1001 (VInt 4) [] ltac:(lia))). by vm_compute.
  - apply (proj2 (partition_divisibility 8 1024 (VInt 64) [] ltac:(lia))). by vm_compute.
Defined.

(** C5. With ["auto"] as the microbatch size, and a global batch size
    divisible by the world size, the plan carries ["auto"] both as the
    microbatch size and as the gradient-accumulation factor; nothing is
    printed and no arithmetic is done on the sentinel. *)
Theorem partition_auto (world_size g : Z) (tr : list event) :
  world_size ≠ 0 → g mod world_size = 0 →
  calculate_batch_size_info world_size (VInt g) (VStr "auto") tr =
    (tr, Ok (g / world_size, VStr "auto", VStr "auto")).
Proof. intros Hw Hdiv. by rewrite calculate_divisible. Qed.

Lemma partition_auto_witness :
  calculate_batch_size_info 8 (VInt 1024) (VStr "auto") [] =
    ([], Ok (1024 / 8, VStr "auto", VStr "auto")).
Proof. apply (partition_auto 8 1024 []); [lia | reflexivity]. Defined.

(** C2, as the code has it.  A positive microbatch size that is at most the
    device batch size and does not divide it is accepted: the
    gradient-accumulation factor is the quotient rounded down, nothing is
    printed and nothing is raised. *)
Theorem partition_rounds_down (world_size g k : Z) (tr : list event) :
  world_size ≠ 0 → g mod world_size = 0 →
  0 < k → k ≤ g / world_size → (g / world_size) mod k ≠ 0 →
  calculate_batch_size_info world_size (VInt g) (VInt k) tr =
    (tr, Ok (g / world_size, VInt k, VInt (g / world_size / k)))
  ∧ g / world_size / k * k < g / world_size.
Proof.
  intros Hw Hdiv Hk Hle Hrem. rewrite calculate_divisible by done. simpl.
  destruct (Z.gtb_spec k (g / world_size)); [lia|].
  destruct (Z.eqb_spec k 0); [lia|]. split; [done|].
  pose proof (Z.div_mod (g / world_size) k ltac:(lia)).
  pose proof (Z.mod_pos_bound (g / world_size) k Hk). lia.
Qed.

Lemma partition_rounds_down_witness :
  calculate_batch_size_info 8 (VInt 1024) (VInt 48) [] =
    ([], Ok (1024 / 8, VInt 48, VInt (1024 / 8 / 48)))
  ∧ 1024 / 8 / 48 * 48 < 1024 / 8.
Proof. apply (partition_rounds_down 8 1024 48 []); by vm_compute. Defined.

(** C2 as stated fails: 48 is positive, at most 128 and does not divide
    128, and the call returns a plan with factor 2 instead of raising. *)
Lemma partition_1024_8_48_no_error :
  0 < 48 ∧ 48 ≤ 1024 / 8 ∧ (1024 / 8) mod 48 ≠ 0
  ∧ calculate_batch_size_info 8 (VInt 1024) (VInt 48) [] = ([], Ok (128, VInt 48, VInt 2))
  ∧ ¬ ∃ tr' e, calculate_batch_size_info 8 (VInt 1024) (VInt 48) [] = (tr', Raise e).
Proof.
  repeat split; try by vm_compute.
  intros (tr' & e & H). vm_compute in H. discriminate.
Qed.

(** C3, as the code has it.  A microbatch size that is neither ["auto"] nor
    an [int] never yields a plan; when the world size divides the global
    batch size, what is raised is the [ValueError] that reports the value
    as not parsable. *)
Theorem partition_not_parsable (world_size : Z) (gbs dms : value) (tr : list event) :
  dms ≠ VStr "auto" → as_int dms = None →
  (∀ tr' plan, calculate_batch_size_info world_size gbs dms tr ≠ (tr', Ok plan))
  ∧ (∀ g, gbs = VInt g → world_size ≠ 0 → g mod world_size = 0 →
       calculate_batch_size_info world_size gbs dms tr =
         (tr, Raise (ValueError (not_parsable_msg dms)))).
Proof.
  intros Hauto Hint.
  assert (py_eq_str dms "auto" = false) as Hne.
  { destruct (py_eq_str dms "auto") eqn:E; [|done]. by apply py_eq_str_true in E. }
  split.
  - intros tr' plan.
    unfold calculate_batch_size_info, py_mod, py_floordiv, raise.
    destruct (as_int gbs) as [g|]; [|done].
    unfold mbind, M_bind, mret, M_ret; simpl.
    destruct (world_size =? 0); [done|]. simpl.
    destruct (g mod world_size =? 0); [|done]. simpl.
    rewrite Hne, Hint. done.
  - intros g -> Hw Hdiv. rewrite calculate_divisible by done.
    by rewrite Hne, Hint.
Qed.

Lemma partition_not_parsable_witness :
  (∀ tr' plan, calculate_batch_size_info 8 (VInt 1024) (VStr "big") [] ≠ (tr', Ok plan))
  ∧ calculate_batch_size_info 8 (VInt 1024) (VStr "big") [] =
      ([], Raise (ValueError (not_parsable_msg (VStr "big")))).
Proof.
  pose proof (partition_not_parsable 8 (VInt 1024) (VStr "big") []
                ltac:(discriminate) eq_refl) as [Hnone Hraise].
  split; [exact Hnone|].
  apply (Hraise 1024); by vm_compute.
Defined.

Example partition_not_parsable_text :
  calculate_batch_size_info 8 (VInt 1024) (VStr "big") [] =
    ([], Raise (ValueError "Not sure how to parse device_microbatch_size='big'"))
  ∧ calculate_batch_size_info 8 (VInt 1024) VNone [] =
    ([], Raise (ValueError "Not sure how to parse device_microbatch_size=None")).
Proof. by vm_compute. Qed.

(** C3 as stated fails on integers that are not positive: a negative
    microbatch size yields a plan (with a negative factor), and zero ends
    in [ZeroDivisionError], not in the not-parsable [ValueError]. *)
Lemma partition_negative_microbatch_returns_plan :
  calculate_batch_size_info 8 (VInt 1024) (VInt (-2)) [] = ([], Ok (128, VInt (-2), VInt (-64)))
  ∧ calculate_batch_size_info 8 (VInt 1024) (VInt 0) [] = ([], Raise ZeroDivisionError).
Proof. by vm_compute. Qed.

(** C4, as the code has it.  With a positive device batch size (the global
    batch size divisible by the world size): an integer microbatch size
    above the device batch size is replaced by it, one warning line is
    printed and the factor is 1; an integer that divides the device batch
    size is kept, nothing is printed and the factor is the exact quotient.
    The two instances of the specification are included. *)
Theorem partition_clamp_or_divide (world_size g k : Z) (tr : list event) :
  world_size ≠ 0 → g mod world_size = 0 → 0 < g / world_size →
  (k > g / world_size →
     calculate_batch_size_info world_size (VInt g) (VInt k) tr =
       (tr ++ [Printed (clamp_warning (VInt k) (g / world_size))],
        Ok (g / world_size, VInt (g / world_size), VInt 1)))
  ∧ ((k | g / world_size) →
     calculate_batch_size_info world_size (VInt g) (VInt k) tr =
       (tr, Ok (g / world_size, VInt k, VInt (g / world_size / k)))
     ∧ g / world_size / k * k = g / world_size)
  ∧ calculate_batch_size_info 8 (VInt 1024) (VInt 256) tr =
      (tr ++ [Printed "WARNING: device_microbatch_size > device_batch_size, will be reduced from 256 -> 128."],
       Ok (128, VInt 128, VInt 1))
  ∧ calculate_batch_size_info 8 (VInt 1024) (VInt 64) tr = (tr, Ok (128, VInt 64, VInt 2)).
Proof.
  intros Hw Hdiv Hpos. split; [|split; [|split]].
  - intros Hgt. rewrite calculate_divisible by done. simpl.
    destruct (Z.gtb_spec k (g / world_size)); [|lia].
    destruct (Z.eqb_spec (g / world_size) 0); [lia|].
    by rewrite Z.div_same by lia.
  - intros [q Hq].
    assert (k ≠ 0) by (intros ->; lia).
    assert (k ≤ g / world_size).
    { apply Z.divide_pos_le; [done|]. by exists q. }
    rewrite calculate_divisible by done. simpl.
    destruct (Z.gtb_spec k (g / world_size)); [lia|].
    destruct (Z.eqb_spec k 0); [done|].
    split; [done|]. rewrite Hq, Z.div_mul by done. done.
  - by rewrite (calculate_divisible 8 1024) by done.
  - by rewrite (calculate_divisible 8 1024) by done.
Qed.

Lemma partition_clamp_or_divide_witness :
  calculate_batch_size_info 8 (VInt 1024) (VInt 300) [] =
    ([] ++ [Printed (clamp_warning (VInt 300) (1024 / 8))],
     Ok (1024 / 8, VInt (1024 / 8), VInt 1))
  ∧ calculate_batch_size_info 8 (VInt 1024) (VInt 32) [] =
      ([], Ok (1024 / 8, VInt 32, VInt (1024 / 8 / 32)))
  ∧ 1024 / 8 / 32 * 32 = 1024 / 8.
Proof.
  split.
  - apply (partition_clamp_or_divide 8 1024 300 []); by vm_compute.
  - apply (partition_clamp_or_divide 8 1024 32 []); try by vm_compute.
    exists 4. by vm_compute.
Defined.

(** C4 as stated fails when the device batch size is zero: the microbatch
    size 4 exceeds it and is clamped to 0 with the warning, and the
    division by the clamped value then raises. *)
Lemma partition_zero_batch_clamp_raises :
  0 mod 8 = 0 ∧ 4 > 0 / 8
  ∧ calculate_batch_size_info 8 (VInt 0) (VInt 4) [] =
      ([Printed "WARNING: device_microbatch_size > device_batch_size, will be reduced from 4 -> 0."],
       Raise ZeroDivisionError).
Proof. by vm_compute. Qed.

(** ** The batch-size update of the orchestrator *)

Lemma getattr_Some (cfg : gmap string value) key v tr :
  cfg !! key = Some v → getattr cfg key tr = (tr, Ok v).
Proof. intros H. unfold getattr. by rewrite H. Qed.



Example update_auto_gives_one :
  update_batch_size_info 8 (sample_cfg (VStr "auto")) [] =
    ([], Ok (updated_cfg 8 (sample_cfg (VStr "auto")) 128 (VStr "auto") (VStr "auto")))
  ∧ updated_cfg 8 (sample_cfg (VStr "auto")) 128 (VStr "auto") (VStr "auto")
      !! "device_eval_batch_size" = Some (VInt 1)
  ∧ updated_cfg 8 (sample_cfg (VStr "auto")) 128 (VStr "auto") (VStr "auto")
      !! "n_gpus" = Some (VInt 8).
Proof. split; [|split]; vm_compute; reflexivity. Qed.

Example update_keeps_eval_batch_size :
  update_batch_size_info 8
    (<["device_eval_batch_size" := VInt 16]> (sample_cfg (VStr "auto"))) [] =
    ([], Ok (updated_cfg 8 (<["device_eval_batch_size" := VInt 16]> (sample_cfg (VStr "auto")))
               128 (VStr "auto") (VStr "auto")))
  ∧ updated_cfg 8 (<["device_eval_batch_size" := VInt 16]> (sample_cfg (VStr "auto")))
      128 (VStr "auto") (VStr "auto") !! "device_eval_batch_size" = Some (VInt 16).
Proof. split; vm_compute; reflexivity. Qed.

(** ** Evaluator assembly *)

Section Assembly.
Variable ext : externals.
Variable tokenizer : Tokenizer.
Variable batch_size : Z.
Variable seqlen : value.

Local Abbreviation dataloader_of := (task_dataloader ext tokenizer batch_size seqlen).
Local Abbreviation call_of := (task_call tokenizer batch_size seqlen).

Lemma truthy_py_and a b : truthy (py_and a b) = truthy a && truthy b.
Proof. unfold py_and. by destruct (truthy a) eqn:E; simpl; [|rewrite E]. Qed.

Lemma lacks_field_falsy icl_task : lacks_field icl_task → truthy (assert_expr icl_task) = false.
Proof.
  unfold assert_expr, dict_get. rewrite !truthy_py_and.
  intros [H|[H|H]]; rewrite H; simpl;
    [done | by rewrite andb_false_r | by rewrite andb_false_r].
Qed.

Lemma empty_field_falsy icl_task : empty_field icl_task → truthy (assert_expr icl_task) = false.
Proof.
  unfold assert_expr, dict_get. rewrite !truthy_py_and.
  intros [H|[H|H]]; rewrite H; simpl;
    [done | by rewrite andb_false_r | by rewrite andb_false_r].
Qed.

Lemma valid_task_truthy icl_task :
  valid_task icl_task = true →
  truthy (assert_expr icl_task) = true
  ∧ dict_get icl_task "metric_names" VNone = VList (declared_metrics icl_task).
Proof.
  unfold valid_task, assert_expr, declared_metrics, dict_get.
  rewrite !truthy_py_and.
  destruct (icl_task !! "dataset_uri") as [[| | |uri|]|]; try done.
  destruct (icl_task !! "name") as [[| | |name|]|]; try done.
  destruct (icl_task !! "metric_names") as [[| | | |names]|]; try done.
  all: simpl; intros H; by split.
Qed.

(** One round of the loop on a task that fails the [assert]. *)
Lemma loop_rejects icl_task cfg evals tr :
  truthy (assert_expr icl_task) = false →
  get_evaluators_loop ext (icl_task :: cfg) tokenizer batch_size seqlen evals tr =
    (tr, Raise AssertionError).
Proof.
  intros H. simpl. unfold mbind at 1, M_bind at 1, py_assert.
  fold (assert_expr icl_task). by rewrite H.
Qed.

(** One round of the loop on a valid task whose data source is built. *)
Lemma loop_accepts icl_task cfg evals tr dl :
  valid_task icl_task = true → dataloader_of icl_task = Ok dl →
  get_evaluators_loop ext (icl_task :: cfg) tokenizer batch_size seqlen evals tr =
    get_evaluators_loop ext cfg tokenizer batch_size seqlen
      (evals ++ [task_evaluator icl_task dl]) (tr ++ [call_of icl_task]).
Proof.
  intros Hvalid Hdl. apply valid_task_truthy in Hvalid as [Htrue Hnames].
  cbn [get_evaluators_loop]. unfold mbind at 1, M_bind at 1, py_assert.
  fold (assert_expr icl_task). rewrite Htrue.
  unfold mret at 1, M_ret at 1.
  unfold mbind at 1, M_bind at 1, external.
  unfold task_dataloader in Hdl. rewrite py_max4_max, Hdl.
  unfold mbind at 1, M_bind at 1. rewrite Hnames.
  unfold py_list, mret at 1, M_ret at 1.
  unfold task_evaluator, task_call. reflexivity.
Qed.

(** The loop over a list that starts with [pre] is the loop over [pre]
    followed by the loop over the rest. *)
Lemma loop_app pre rest evals tr :
  get_evaluators_loop ext (pre ++ rest) tokenizer batch_size seqlen evals tr =
    match get_evaluators_loop ext pre tokenizer batch_size seqlen evals tr with
    | (tr', Ok evals') => get_evaluators_loop ext rest tokenizer batch_size seqlen evals' tr'
    | (tr', Raise e) => (tr', Raise e)
    end.
Proof.
  revert evals tr. induction pre as [|icl_task pre IH]; intros evals tr; [done|].
  simpl. unfold mbind, M_bind.
  destruct (py_assert _ tr) as [tr1 [[]|e]]; [|done].
  destruct (external _ _ _ tr1) as [tr2 [dl|e]]; [|done].
  destruct (py_list _ tr2) as [tr3 [names|e]]; [|done].
  apply IH.
Qed.

Lemma loop_valid cfg dls evals tr :
  Forall2 (λ icl_task dl, valid_task icl_task = true ∧ dataloader_of icl_task = Ok dl)
    cfg dls →
  get_evaluators_loop ext cfg tokenizer batch_size seqlen evals tr =
    (tr ++ (call_of <$> cfg), Ok (evals ++ zip_with task_evaluator cfg dls)).
Proof.
  intros H. revert evals tr.
  induction H as [|icl_task dl cfg dls [Hvalid Hdl] _ IH]; intros evals tr.
  - simpl. by rewrite !app_nil_r.
  - rewrite (loop_accepts _ _ _ _ dl) by done. rewrite IH. simpl.
    by rewrite <- !app_assoc.
Qed.

(** A task that fails the [assert] stops the assembly with
    [AssertionError] right after the tasks before it: the trace is the
    one those tasks left. *)
Lemma rejected_task_stops pre icl_task post tr tr' evals :
  truthy (assert_expr icl_task) = false →
  get_evaluators ext pre tokenizer batch_size seqlen tr = (tr', Ok evals) →
  get_evaluators ext (pre ++ icl_task :: post) tokenizer batch_size seqlen tr =
    (tr', Raise AssertionError).
Proof.
  unfold get_evaluators. intros Hfalse Hpre.
  rewrite loop_app, Hpre. by apply loop_rejects.
Qed.

(** With such a task anywhere in the list, no list of evaluators is
    returned. *)
Lemma rejected_task_no_result cfg icl_task tr tr' evals :
  icl_task ∈ cfg → truthy (assert_expr icl_task) = false →
  get_evaluators ext cfg tokenizer batch_size seqlen tr ≠ (tr', Ok evals).
Proof.
  intros Hin Hfalse. apply list_elem_of_split in Hin as (pre & post & ->).
  unfold get_evaluators. rewrite loop_app.
  destruct (get_evaluators_loop ext pre _ _ _ _ tr) as [tr1 [evals1|e]]; [|done].
  by rewrite loop_rejects.
Qed.

End Assembly.

(** C8. A task specification that lacks [dataset_uri], [name] or
    [metric_names] makes [get_evaluators] raise [AssertionError] as soon as
    the tasks before it are assembled, with the trace those tasks left (no
    data source is built for it), and no list of evaluators is ever
    returned.  On valid task specifications whose data sources are built,
    [get_evaluators] returns one evaluator per task, in the order of the
    tasks, each with the declared metric names as they are and a data
    source built with batch size [max 4 batch_size]. *)
Theorem assemble_evaluators (ext : externals) (tokenizer : Tokenizer)
    (batch_size : Z) (seqlen : value) :
  (∀ pre icl_task post tr tr' evals,
     lacks_field icl_task →
     get_evaluators ext pre tokenizer batch_size seqlen tr = (tr', Ok evals) →
     get_evaluators ext (pre ++ icl_task :: post) tokenizer batch_size seqlen tr =
       (tr', Raise AssertionError))
  ∧ (∀ cfg icl_task tr tr' evals,
       icl_task ∈ cfg → lacks_field icl_task →
       get_evaluators ext cfg tokenizer batch_size seqlen tr ≠ (tr', Ok evals))
  ∧ (∀ cfg dls tr,
       Forall2 (λ icl_task dl,
                  valid_task icl_task = true
                  ∧ task_dataloader ext tokenizer batch_size seqlen icl_task = Ok dl)
         cfg dls →
       ∃ evals,
         get_evaluators ext cfg tokenizer batch_size seqlen tr =
           (tr ++ (task_call tokenizer batch_size seqlen <$> cfg), Ok evals)
         ∧ length evals = length cfg
         ∧ ∀ i icl_task, cfg !! i = Some icl_task →
             ∃ dl names, dls !! i = Some dl
               ∧ icl_task !! "metric_names" = Some (VList names)
               ∧ evals !! i = Some {| label := dict_get icl_task "name" VNone;
                                      dataloader := dl;
                                      metric_names := names |}).
Proof.
  split; [|split].
  - intros pre icl_task post tr tr' evals Hlacks Hpre.
    eapply rejected_task_stops; [by apply lacks_field_falsy | done].
  - intros cfg icl_task tr tr' evals Hin Hlacks.
    eapply rejected_task_no_result; [done | by apply lacks_field_falsy].
  - intros cfg dls tr Hall.
    exists (zip_with task_evaluator cfg dls).
    unfold get_evaluators. rewrite (loop_valid _ _ _ _ _ dls) by done.
    split; [done|].
    pose proof (Forall2_length _ _ _ Hall) as Hlen.
    split; [rewrite length_zip_with; lia|].
    intros i icl_task Hi.
    destruct (dls !! i) as [dl|] eqn:Hdl.
    2: { apply lookup_ge_None in Hdl. apply lookup_lt_Some in Hi. lia. }
    destruct (Forall2_lookup_lr _ _ _ _ _ _ Hall Hi Hdl) as [Hvalid _].
    exists dl, (declared_metrics icl_task). split; [done|]. split.
    + unfold valid_task in Hvalid. unfold declared_metrics.
      destruct (icl_task !! "dataset_uri") as [[| | |uri|]|]; try done.
      destruct (icl_task !! "name") as [[| | |name|]|]; try done.
      by destruct (icl_task !! "metric_names") as [[| | | |names]|].
    + rewrite lookup_zip_with, Hi. simpl. by rewrite Hdl.
Qed.

Lemma assemble_evaluators_witness :
  get_evaluators sample_externals
    ([sample_task "s3://lambada" "lambada" ["InContextLearningLMAccuracy"]]
     ++ (<["name" := VStr "piqa"]> ∅) :: []) sample_tokenizer 1 (VInt 2048) [] =
    ([Called "get_lm_task_dataloader"
        [("dataset_uri", VStr "s3://lambada"); ("batch_size", VInt 4);
         ("max_seq_len", VInt 2048); ("eos_tok_id", VInt 0)]],
     Raise AssertionError)
  ∧ ∃ evals,
      get_evaluators sample_externals
        [sample_task "s3://lambada" "lambada" ["acc"; "loss"];
         sample_task "s3://piqa" "piqa" ["acc"]] sample_tokenizer 8 (VInt 2048) [] =
        ([] ++ (task_call sample_tokenizer 8 (VInt 2048) <$>
                  [sample_task "s3://lambada" "lambada" ["acc"; "loss"];
                   sample_task "s3://piqa" "piqa" ["acc"]]), Ok evals)
      ∧ length evals = 2%nat.
Proof.
  destruct (assemble_evaluators sample_externals sample_tokenizer 1 (VInt 2048))
    as (Hlacks & _ & _).
  destruct (assemble_evaluators sample_externals sample_tokenizer 8 (VInt 2048))
    as (_ & _ & Hvalid).
  split.
  - apply (Hlacks _ _ _ _ _ [task_evaluator (sample_task "s3://lambada" "lambada"
                                               ["InContextLearningLMAccuracy"]) 12%N]).
    + right. right. reflexivity.
    + by vm_compute.
  - destruct (Hvalid [sample_task "s3://lambada" "lambada" ["acc"; "loss"];
                      sample_task "s3://piqa" "piqa" ["acc"]] [12%N; 12%N] [])
      as (evals & Hrun & Hlen & _).
    + repeat constructor; by vm_compute.
    + exists evals. split; [exact Hrun | exact Hlen].
Defined.

Example assemble_two_tasks :
  get_evaluators sample_externals
    [sample_task "s3://lambada" "lambada" ["acc"; "loss"];
     sample_task "s3://piqa" "piqa" ["acc"]] sample_tokenizer 8 (VInt 2048) [] =
  ([Called "get_lm_task_dataloader"
      [("dataset_uri", VStr "s3://lambada"); ("batch_size", VInt 8);
       ("max_seq_len", VInt 2048); ("eos_tok_id", VInt 0)];
    Called "get_lm_task_dataloader"
      [("dataset_uri", VStr "s3://piqa"); ("batch_size", VInt 8);
       ("max_seq_len", VInt 2048); ("eos_tok_id", VInt 0)]],
   Ok [ {| label := VStr "lambada"; dataloader := 12%N;
           metric_names := [VStr "acc"; VStr "loss"] |};
        {| label := VStr "piqa"; dataloader := 12%N; metric_names := [VStr "acc"] |} ]).
Proof. by vm_compute. Qed.

(** C10. A task specification in which [dataset_uri] or [name] is the
    empty string, or [metric_names] the empty list, is rejected the way a
    missing field is: [AssertionError] right after the tasks before it,
    with the trace those tasks left, and never a list of evaluators. *)
Theorem empty_fields_rejected (ext : externals) (tokenizer : Tokenizer)
    (batch_size : Z) (seqlen : value) (icl_task : gmap string value) :
  empty_field icl_task →
  (∀ pre post tr tr' evals,
     get_evaluators ext pre tokenizer batch_size seqlen tr = (tr', Ok evals) →
     get_evaluators ext (pre ++ icl_task :: post) tokenizer batch_size seqlen tr =
       (tr', Raise AssertionError))
  ∧ (∀ cfg tr tr' evals,
       icl_task ∈ cfg →
       get_evaluators ext cfg tokenizer batch_size seqlen tr ≠ (tr', Ok evals)).
Proof.
  intros Hempty. apply empty_field_falsy in Hempty. split.
  - intros pre post tr tr' evals Hpre. by eapply rejected_task_stops.
  - intros cfg tr tr' evals Hin. by eapply rejected_task_no_result.
Qed.

Lemma empty_fields_rejected_witness :
  get_evaluators sample_externals ([] ++ sample_task "s3://lambada" "lambada" [] :: [])
    sample_tokenizer 8 (VInt 2048) [] = ([], Raise AssertionError)
  ∧ get_evaluators sample_externals ([] ++ sample_task "" "lambada" ["acc"] :: [])
      sample_tokenizer 8 (VInt 2048) [] = ([], Raise AssertionError).
Proof.
  split.
  - apply (proj1 (empty_fields_rejected sample_externals sample_tokenizer 8 (VInt 2048)
                    (sample_task "s3://lambada" "lambada" [])
                    ltac:(right; right; reflexivity)) [] [] [] [] []).
    reflexivity.
  - apply (proj1 (empty_fields_rejected sample_externals sample_tokenizer 8 (VInt 2048)
                    (sample_task "" "lambada" ["acc"])
                    ltac:(left; reflexivity)) [] [] [] [] []).
    reflexivity.
Defined.

(** ** Component resolution *)

Lemma prefix_append s t : String.prefix s (s +:+ t) = true.
Proof.
  induction s as [|a s IH]; simpl.
  - by destruct t.
  - by destruct (ascii_dec a a).
Qed.

Lemma mentions_unfold needle msg :
  mentions needle msg =
    String.prefix needle msg
    || match msg with
       | EmptyString => false
       | String _ msg' => mentions needle msg'
       end.
Proof. by destruct msg. Qed.

Lemma mentions_prefix s t : mentions s (s +:+ t) = true.
Proof. by rewrite mentions_unfold, prefix_append. Qed.

Lemma mentions_append_r needle s t :
  mentions needle t = true → mentions needle (s +:+ t) = true.
Proof.
  intros H. induction s as [|a s IH]; [done|].
  change (String a s +:+ t) with (String a (s +:+ t)).
  rewrite mentions_unfold, IH. apply orb_true_r.
Qed.

Lemma mentions_end needle s : mentions needle (s +:+ needle) = true.
Proof.
  apply mentions_append_r.
  assert (needle = needle +:+ "") as E.
  { clear. induction needle as [|a n IH]; [done|].
    change (String a n +:+ "") with (String a (n +:+ "")). congruence. }
  rewrite E at 2. apply mentions_prefix.
Qed.

Lemma getattr_name (name : string) (kwargs : gmap string value) tr :
  getattr (<["name" := VStr name]> kwargs) "name" tr = (tr, Ok (VStr name)).
Proof. apply getattr_Some. by simplify_map_eq. Qed.

Lemma py_eq_str_refl (lit : string) : py_eq_str (VStr lit) lit = true.
Proof. by apply py_eq_str_true. Qed.

Lemma py_eq_str_ne (name lit : string) : name ≠ lit → py_eq_str (VStr name) lit = false.
Proof. intros H. simpl. by rewrite bool_decide_eq_false. Qed.

(** In the six categories that have a build function, a name without a
    builder is reported by a [ValueError] that names the category and the
    name, and nothing is called. *)
Lemma resolve_unknown_name (ext : externals) (model : obj) (c : category) (name : string)
    (kwargs : gmap string value) (tr : list event) :
  c ≠ TokenizerCat → registered ext c name = false →
  ∃ msg, resolve ext model c name kwargs tr = (tr, Raise (ValueError msg))
    ∧ mentions (category_name c) msg = true ∧ mentions name msg = true.
Proof.
  intros Hc Hreg. destruct c; simpl in Hreg; try done; clear Hc.
  - apply bool_decide_eq_false in Hreg.
    exists ("Not sure how to build logger: " +:+ name). split; [|split].
    + unfold resolve, build_logger. by rewrite bool_decide_false.
    + reflexivity.
    + apply mentions_end.
  - repeat (apply orb_false_iff in Hreg as [Hreg ?]).
    exists ("Not sure how to build callback: " +:+ name). split; [|split].
    + unfold resolve, build_callback. by rewrite Hreg, H1, H0, H.
    + reflexivity.
    + apply mentions_end.
  - apply bool_decide_eq_false in Hreg.
    exists ("Not sure how to build algorithm: " +:+ name). split; [|split].
    + unfold resolve, build_algorithm. by rewrite bool_decide_false.
    + reflexivity.
    + apply mentions_end.
  - apply bool_decide_eq_false in Hreg.
    exists ("Not sure how to build optimizer: " +:+ name). split; [|split].
    + unfold resolve, build_optimizer.
      unfold mbind at 1, M_bind at 1. rewrite getattr_name.
      rewrite py_eq_str_ne by done.
      unfold mbind at 1, M_bind at 1. by rewrite getattr_name.
    + reflexivity.
    + apply mentions_end.
  - apply orb_false_iff in Hreg as [H1 H2].
    apply bool_decide_eq_false in H1, H2.
    exists ("Not sure how to build scheduler: " +:+ name). split; [|split].
    + unfold resolve, build_scheduler.
      unfold mbind at 1, M_bind at 1. rewrite getattr_name.
      rewrite py_eq_str_ne by done.
      unfold mbind at 1, M_bind at 1. rewrite getattr_name.
      rewrite py_eq_str_ne by done.
      unfold mbind at 1, M_bind at 1. by rewrite getattr_name.
    + reflexivity.
    + apply mentions_end.
  - apply bool_decide_eq_false in Hreg.
    assert (COMPOSER_MODEL_REGISTRY ext !! name = None) as Hnone.
    { destruct (COMPOSER_MODEL_REGISTRY ext !! name) eqn:E; [|done].
      destruct Hreg. by eexists. }
    exists ("Not sure how to build model with name=" +:+ name). split; [|split].
    + unfold resolve, build_composer_model, try_except.
      unfold mbind at 1, M_bind at 1. rewrite getattr_name.
      unfold mbind at 1, M_bind at 1, getitem. rewrite Hnone.
      unfold raise at 1.
      unfold mbind at 1, M_bind at 1. by rewrite getattr_name.
    + reflexivity.
    + apply mentions_end.
Qed.

(** C7, at the tokenizer.  A tokenizer type that is not in
    [TOKENIZER_REGISTRY] ends in the [KeyError] of the table lookup, which
    carries the [repr] of the type and nothing else; nothing is called. *)
Theorem tokenizer_unknown_name (ext : externals) (model : obj) (name : string)
    (args : gmap string value) (tr : list event) :
  registered ext TokenizerCat name = false →
  resolve ext model TokenizerCat name args tr = (tr, Raise (KeyError (py_repr (VStr name)))).
Proof.
  simpl. intros Hreg. apply bool_decide_eq_false in Hreg.
  unfold main_tokenizer, getitem. unfold mbind, M_bind.
  destruct (TOKENIZER_REGISTRY ext !! name) eqn:E; [|done].
  destruct Hreg. by eexists.
Qed.

Lemma tokenizer_unknown_name_witness :
  resolve sample_externals 0%N TokenizerCat "nonexistent" ∅ [] =
    ([], Raise (KeyError (py_repr (VStr "nonexistent")))).
Proof. apply (tokenizer_unknown_name sample_externals 0%N "nonexistent" ∅ []). by vm_compute. Defined.

Example tokenizer_error_text :
  py_repr (VStr "nonexistent") = "'nonexistent'"
  ∧ mentions "tokenizer" (py_repr (VStr "nonexistent")) = false
  ∧ mentions "nonexistent" (py_repr (VStr "nonexistent")) = true.
Proof. by vm_compute. Qed.

Example model_unknown_name_text :
  resolve sample_externals 0%N Model "nonexistent" ∅ [] =
    ([], Raise (ValueError "Not sure how to build model with name=nonexistent")).
Proof. by vm_compute. Qed.

(** ** Errors raised by the builders *)

(** C6, as the code has it.  An error raised by the constructor of a
    logger, callback, algorithm, optimizer, scheduler or tokenizer is the
    error of the resolution, unchanged.  An error raised by a model
    builder or by the text data loader is caught and replaced by the
    [ValueError] of [build_composer_model], which names the model, or of
    [build_dataloader], which shows the configuration. *)
Theorem builder_errors (ext : externals) (e : exn) (tr : list event) :
  (∀ kwargs, WandBLogger ext kwargs = Raise e →
     fails_with (build_logger ext "wandb" kwargs) tr e)
  ∧ (∀ kwargs, LRMonitor ext = Raise e →
       fails_with (build_callback ext "lr_monitor" kwargs) tr e)
  ∧ (∀ kwargs, MemoryMonitor ext = Raise e →
       fails_with (build_callback ext "memory_monitor" kwargs) tr e)
  ∧ (∀ kwargs, SpeedMonitor ext (dict_get kwargs "window_size" (VInt 1)) = Raise e →
       fails_with (build_callback ext "speed_monitor" kwargs) tr e)
  ∧ (∀ kwargs, OptimizerMonitor ext (dict_get kwargs "log_optimizer_metrics" VNone) = Raise e →
       fails_with (build_callback ext "optimizer_monitor" kwargs) tr e)
  ∧ (∀ kwargs, GradientClipping ext kwargs = Raise e →
       fails_with (build_algorithm ext "gradient_clipping" kwargs) tr e)
  ∧ (∀ cfg model params lr betas eps weight_decay,
       cfg !! "name" = Some (VStr "decoupled_adamw") →
       model_parameters ext model = Ok params →
       cfg !! "lr" = Some lr → cfg !! "betas" = Some betas →
       cfg !! "eps" = Some eps → cfg !! "weight_decay" = Some weight_decay →
       DecoupledAdamW ext params lr betas eps weight_decay = Raise e →
       fails_with (build_optimizer ext cfg model) tr e)
  ∧ (∀ cfg t_warmup,
       cfg !! "name" = Some (VStr "constant_with_warmup") →
       cfg !! "t_warmup" = Some t_warmup →
       ConstantWithWarmupScheduler ext t_warmup = Raise e →
       fails_with (build_scheduler ext cfg) tr e)
  ∧ (∀ cfg t_warmup alpha_f,
       cfg !! "name" = Some (VStr "cosine_with_warmup") →
       cfg !! "t_warmup" = Some t_warmup → cfg !! "alpha_f" = Some alpha_f →
       CosineAnnealingWithWarmupScheduler ext t_warmup alpha_f = Raise e →
       fails_with (build_scheduler ext cfg) tr e)
  ∧ (∀ type builder args,
       TOKENIZER_REGISTRY ext !! type = Some builder → builder args = Raise e →
       fails_with (main_tokenizer ext (VStr type) args) tr e)
  ∧ (∀ cfg name builder,
       cfg !! "name" = Some (VStr name) →
       COMPOSER_MODEL_REGISTRY ext !! name = Some builder → builder cfg = Raise e →
       fails_with (build_composer_model ext cfg) tr
         (ValueError ("Not sure how to build model with name=" +:+ name)))
  ∧ (∀ cfg device_batch_size,
       build_text_dataloader ext cfg device_batch_size = Raise e →
       fails_with (build_dataloader ext cfg device_batch_size) tr
         (ValueError ("Not sure how to build dataloader with config: " +:+ str_of_cfg ext cfg))).
Proof.
  unfold fails_with. repeat split.
  - intros kwargs H. unfold build_logger, external. simpl. by rewrite H.
  - intros kwargs H. unfold build_callback, external. simpl. by rewrite H.
  - intros kwargs H. unfold build_callback, external. simpl. by rewrite H.
  - intros kwargs H. unfold build_callback, external. simpl. by rewrite H.
  - intros kwargs H. unfold build_callback, external. simpl. by rewrite H.
  - intros kwargs H. unfold build_algorithm, external. simpl. by rewrite H.
  - intros cfg model params lr betas eps wd Hname Hparams Hlr Hbetas Heps Hwd H.
    unfold build_optimizer.
    step. rewrite (getattr_Some _ _ _ _ Hname); cbv beta iota. rewrite py_eq_str_refl.
    step. unfold external at 1. rewrite Hparams. cbv beta iota.
    step. rewrite (getattr_Some _ _ _ _ Hlr); cbv beta iota.
    step. rewrite (getattr_Some _ _ _ _ Hbetas); cbv beta iota.
    step. rewrite (getattr_Some _ _ _ _ Heps); cbv beta iota.
    step. rewrite (getattr_Some _ _ _ _ Hwd); cbv beta iota.
    unfold external. simpl. by rewrite H.
  - intros cfg t_warmup Hname Hw H. unfold build_scheduler.
    step. rewrite (getattr_Some _ _ _ _ Hname); cbv beta iota. rewrite py_eq_str_refl.
    step. rewrite (getattr_Some _ _ _ _ Hw); cbv beta iota.
    unfold external. simpl. by rewrite H.
  - intros cfg t_warmup alpha_f Hname Hw Ha H. unfold build_scheduler.
    step. rewrite (getattr_Some _ _ _ _ Hname); cbv beta iota. rewrite py_eq_str_ne by done.
    step. rewrite (getattr_Some _ _ _ _ Hname); cbv beta iota. rewrite py_eq_str_refl.
    step. rewrite (getattr_Some _ _ _ _ Hw); cbv beta iota.
    step. rewrite (getattr_Some _ _ _ _ Ha); cbv beta iota.
    unfold external. simpl. by rewrite H.
  - intros type builder args Hb H. unfold main_tokenizer, getitem.
    step. rewrite Hb. unfold mret at 1, M_ret at 1, external. cbv beta iota. by rewrite H.
  - intros cfg name builder Hname Hb H. unfold build_composer_model, try_except.
    step. rewrite (getattr_Some _ _ _ _ Hname); cbv beta iota.
    step. unfold getitem. rewrite Hb. unfold mret at 1, M_ret at 1, external.
    cbv beta iota. rewrite H. cbv beta iota.
    step. by rewrite (getattr_Some _ _ _ _ Hname).
  - intros cfg dbs H. unfold build_dataloader, try_except, external. by rewrite H.
Qed.

Lemma builder_errors_witness :
  fails_with (build_composer_model sample_externals (<["name" := VStr "mosaic_gpt"]> ∅)) []
    (ValueError ("Not sure how to build model with name=" +:+ "mosaic_gpt"))
  ∧ fails_with (build_dataloader sample_externals ∅ (VInt 128)) []
      (ValueError ("Not sure how to build dataloader with config: "
                   +:+ str_of_cfg sample_externals ∅)).
Proof.
  split.
  - refine (proj1 (proj2 (proj2 (proj2 (proj2 (proj2 (proj2 (proj2 (proj2 (proj2 (proj2
             (builder_errors sample_externals (External "d_model is missing") [])))))))))))
             (<["name" := VStr "mosaic_gpt"]> ∅) "mosaic_gpt"
             (λ _, Raise (External "d_model is missing")) _ _ _); by vm_compute.
  - refine (proj2 (proj2 (proj2 (proj2 (proj2 (proj2 (proj2 (proj2 (proj2 (proj2 (proj2
             (builder_errors sample_externals (External "dataset not found") [])))))))))))
             ∅ (VInt 128) _); by vm_compute.
Defined.

(** C6 as stated fails for the model and the data loader: the error of the
    builder is not the error of the resolution. *)
Lemma model_builder_error_is_replaced :
  (∃ builder,
     COMPOSER_MODEL_REGISTRY sample_externals !! "mosaic_gpt" = Some builder
     ∧ builder (<["name" := VStr "mosaic_gpt"]> ∅) = Raise (External "d_model is missing"))
  ∧ resolve sample_externals 0%N Model "mosaic_gpt" ∅ [] =
      ([Called "COMPOSER_MODEL_REGISTRY[cfg.name]" [("name", VStr "mosaic_gpt")]],
       Raise (ValueError "Not sure how to build model with name=mosaic_gpt"))
  ∧ ¬ fails_with (resolve sample_externals 0%N Model "mosaic_gpt" ∅) []
        (External "d_model is missing").
Proof.
  split; [|split].
  - exists (λ _, Raise (External "d_model is missing")). by vm_compute.
  - by vm_compute.
  - unfold fails_with. vm_compute. discriminate.
Qed.

(** * Further properties *)

(** ** The partition, case by case *)

(** [calculate_batch_size_info] on any global batch size. *)
Lemma calculate_cases (w : Z) (gbs dms : value) (tr : list event) :
  calculate_batch_size_info w gbs dms tr =
    match as_int gbs with
    | None => (tr, Raise TypeError)
    | Some g =>
        if w =? 0 then (tr, Raise ZeroDivisionError)
        else if negb (g mod w =? 0) then (tr, Raise (ValueError (not_divisible_msg gbs w)))
        else if py_eq_str dms "auto" then (tr, Ok (g / w, dms, VStr "auto"))
        else match as_int dms with
             | Some m =>
                 if m >? g / w then
                   (tr ++ [Printed (clamp_warning dms (g / w))],
                    if g / w =? 0 then Raise ZeroDivisionError
                    else Ok (g / w, VInt (g / w), VInt (g / w / (g / w))))
                 else
                   (tr, if m =? 0 then Raise ZeroDivisionError
                        else Ok (g / w, dms, VInt (g / w / m)))
             | None => (tr, Raise (ValueError (not_parsable_msg dms)))
             end
    end.
Proof.
  unfold calculate_batch_size_info, py_mod, py_floordiv.
  destruct (as_int gbs) as [g|]; [|done].
  destruct (w =? 0); [done|].
  unfold mbind, M_bind, mret, M_ret, raise; simpl.
  destruct (g mod w =? 0); simpl; [|done].
  destruct (py_eq_str dms "auto"); [done|].
  destruct (as_int dms) as [m|]; [|done].
  destruct (m >? g / w); unfold print, emit; simpl.
  - destruct (g / w =? 0); done.
  - destruct (m =? 0); done.
Qed.



(** X2. The microbatch size of a plan differs from the one given only
    after the warning: either nothing is printed and the plan carries the
    microbatch size as given, or exactly the clamp warning is printed, the
    given size is an integer above the device batch size and the plan
    carries the device batch size. *)
Theorem partition_changes_only_with_warning (w : Z) (gbs dms : value)
    (tr tr' : list event) (dbs : Z) (m ga : value) :
  calculate_batch_size_info w gbs dms tr = (tr', Ok (dbs, m, ga)) →
  (tr' = tr ∧ m = dms)
  ∨ (tr' = tr ++ [Printed (clamp_warning dms dbs)] ∧ m = VInt dbs ∧ ga = VInt 1
     ∧ ∃ k, as_int dms = Some k ∧ k > dbs).
Proof.
  rewrite calculate_cases.
  destruct (as_int gbs) as [g|]; [|done].
  destruct (w =? 0); [done|].
  destruct (g mod w =? 0); simpl; [|done].
  destruct (py_eq_str dms "auto"); [intros [= <- <- <- <-]; by left|].
  destruct (as_int dms) as [k|]; [|done].
  destruct (Z.gtb_spec k (g / w)).
  - destruct (Z.eqb_spec (g / w) 0); [done|].
    intros [= <- <- <- <-]. right. rewrite Z.div_same by done.
    repeat split; eauto with lia.
  - destruct (k =? 0); [done|]. intros [= <- <- <- <-]. by left.
Qed.

Lemma partition_changes_only_with_warning_witness :
  ([Printed (clamp_warning (VInt 256) 128)] = [] ∧ VInt 128 = VInt 256)
  ∨ ([Printed (clamp_warning (VInt 256) 128)] = [] ++ [Printed (clamp_warning (VInt 256) 128)]
     ∧ VInt 128 = VInt 128 ∧ VInt 1 = VInt 1
     ∧ ∃ k, as_int (VInt 256) = Some k ∧ k > 128).
Proof.
  apply (partition_changes_only_with_warning 8 (VInt 1024) (VInt 256) []). by vm_compute.
Defined.

(** X3. With a positive integer microbatch size and a positive device
    batch size, the plan's microbatch size is the smaller of the two, the
    gradient-accumulation factor is at least 1, and the factor times the
    microbatch size covers the device batch size up to less than one
    microbatch. *)
Theorem partition_plan_bounds (w : Z) (gbs dms : value) (tr tr' : list event)
    (dbs k : Z) (m ga : value) :
  calculate_batch_size_info w gbs dms tr = (tr', Ok (dbs, m, ga)) →
  as_int dms = Some k → 0 < k → 0 < dbs →
  ∃ n, as_int m = Some (Z.min k dbs) ∧ ga = VInt n
    ∧ 1 ≤ n ∧ n * Z.min k dbs ≤ dbs < (n + 1) * Z.min k dbs.
Proof.
  rewrite calculate_cases. intros Hrun Hk Hpos Hdbs.
  destruct (as_int gbs) as [g|]; [|done].
  destruct (w =? 0); [done|].
  destruct (g mod w =? 0); simpl in Hrun; [|done].
  destruct (py_eq_str dms "auto") eqn:Hauto.
  { apply py_eq_str_true in Hauto. by subst. }
  rewrite Hk in Hrun.
  destruct (Z.gtb_spec k (g / w)).
  - destruct (Z.eqb_spec (g / w) 0); [done|].
    injection Hrun as <- <- <- <-. exists 1.
    rewrite Z.div_same, Z.min_r by lia. simpl. repeat split; lia.
  - destruct (Z.eqb_spec k 0); [lia|].
    injection Hrun as <- <- <- <-. exists (g / w / k).
    rewrite Z.min_l by lia. split; [done|]. split; [done|].
    pose proof (Z.div_mod (g / w) k ltac:(lia)).
    pose proof (Z.mod_pos_bound (g / w) k Hpos).
    assert (1 ≤ g / w / k) by (apply Z.div_le_lower_bound; lia).
    repeat split; nia.
Qed.

Lemma partition_plan_bounds_witness :
  ∃ n, as_int (VInt 48) = Some (Z.min 48 128) ∧ VInt 2 = VInt n
    ∧ 1 ≤ n ∧ n * Z.min 48 128 ≤ 128 < (n + 1) * Z.min 48 128.
Proof.
  apply (partition_plan_bounds 8 (VInt 1024) (VInt 48) [] [] 128 48 (VInt 48) (VInt 2));
    by vm_compute.
Defined.

(** Partitioning with the microbatch size of a plan. *)
Lemma calculate_stable (w : Z) (gbs dms : value) (tr tr' tr2 : list event)
    (dbs : Z) (m ga : value) :
  calculate_batch_size_info w gbs dms tr = (tr', Ok (dbs, m, ga)) →
  calculate_batch_size_info w gbs m tr2 = (tr2, Ok (dbs, m, ga)).
Proof.
  rewrite !calculate_cases.
  destruct (as_int gbs) as [g|]; [|done].
  destruct (w =? 0); [done|].
  destruct (g mod w =? 0); simpl; [|done].
  destruct (py_eq_str dms "auto") eqn:Hauto.
  { intros [= <- <- <- <-]. by rewrite Hauto. }
  destruct (as_int dms) as [k|] eqn:Hk; [|done].
  destruct (Z.gtb_spec k (g / w)).
  - destruct (Z.eqb_spec (g / w) 0) as [|Hnz]; [done|].
    intros [= <- <- <- <-]. simpl.
    destruct (Z.gtb_spec (g / w) (g / w)); [lia|].
    by destruct (Z.eqb_spec (g / w) 0).
  - destruct (Z.eqb_spec k 0) as [|Hnz]; [done|].
    intros [= <- <- <- <-]. rewrite Hauto, Hk.
    destruct (Z.gtb_spec k (g / w)); [lia|].
    by destruct (Z.eqb_spec k 0).
Qed.


(** The microbatch size of a plan is ["auto"], as given, or the smaller of
    the integer given and the device batch size. *)
Lemma calculate_microbatch (w : Z) (gbs dms : value) (tr tr' : list event)
    (dbs : Z) (m ga : value) :
  calculate_batch_size_info w gbs dms tr = (tr', Ok (dbs, m, ga)) →
  (dms = VStr "auto" ∧ m = VStr "auto")
  ∨ (∃ k, as_int dms = Some k ∧ as_int m = Some (Z.min k dbs) ∧ py_eq_str m "auto" = false).
Proof.
  rewrite calculate_cases.
  destruct (as_int gbs) as [g|]; [|done].
  destruct (w =? 0); [done|].
  destruct (g mod w =? 0); simpl; [|done].
  destruct (py_eq_str dms "auto") eqn:Hauto.
  { apply py_eq_str_true in Hauto as ->. intros [= <- <- <- <-]. by left. }
  destruct (as_int dms) as [k|] eqn:Hk; [|done].
  destruct (Z.gtb_spec k (g / w)).
  - destruct (g / w =? 0); [done|]. intros [= <- <- <- <-]. right.
    exists k. by rewrite Z.min_r by lia.
  - destruct (k =? 0); [done|]. intros [= <- <- <- <-]. right.
    exists k. by rewrite Z.min_l, Hk, Hauto by lia.
Qed.

(** X4. A plan is stable: partitioning again with the microbatch size of
    the plan gives the same plan and prints nothing. *)
Theorem partition_idempotent (w : Z) (gbs dms : value) (tr tr' tr2 : list event)
    (dbs : Z) (m ga : value) :
  calculate_batch_size_info w gbs dms tr = (tr', Ok (dbs, m, ga)) →
  calculate_batch_size_info w gbs m tr2 = (tr2, Ok (dbs, m, ga)).
Proof. apply calculate_stable. Qed.

Lemma partition_idempotent_witness :
  calculate_batch_size_info 8 (VInt 1024) (VInt 128) [] = ([], Ok (128, VInt 128, VInt 1)).
Proof.
  apply (partition_idempotent 8 (VInt 1024) (VInt 256) []
           [Printed (clamp_warning (VInt 256) 128)]). by vm_compute.
Defined.

(** X5. A [bool] microbatch size is taken as the integer it is: [True]
    is kept in the plan and the factor is the device batch size itself
    (when that is at least 1), nothing printed; [False] ends in
    [ZeroDivisionError] (when the device batch size is not negative). *)
Theorem partition_bool_microbatch (w g : Z) (tr : list event) :
  w ≠ 0 → g mod w = 0 →
  (1 ≤ g / w →
     calculate_batch_size_info w (VInt g) (VBool true) tr =
       (tr, Ok (g / w, VBool true, VInt (g / w))))
  ∧ (0 ≤ g / w →
     calculate_batch_size_info w (VInt g) (VBool false) tr = (tr, Raise ZeroDivisionError)).
Proof.
  intros Hw Hdiv. rewrite !calculate_divisible by done. simpl. split; intros Hd.
  - destruct (Z.gtb_spec 1 (g / w)); [lia|]. by rewrite Z.div_1_r.
  - by destruct (Z.gtb_spec 0 (g / w)); [lia|].
Qed.

Lemma partition_bool_microbatch_witness :
  calculate_batch_size_info 8 (VInt 1024) (VBool true) [] =
    ([], Ok (1024 / 8, VBool true, VInt (1024 / 8)))
  ∧ calculate_batch_size_info 8 (VInt 1024) (VBool false) [] = ([], Raise ZeroDivisionError).
Proof.
  destruct (partition_bool_microbatch 8 1024 [] ltac:(done) eq_refl) as [Ht Hf].
  split; [apply Ht | apply Hf]; by vm_compute.
Defined.

(** ** The batch-size update, as a whole *)

(** [update_batch_size_info] on a configuration that has the two sizes. *)
Lemma update_run (w : Z) (cfg : gmap string value) (gbs dms : value) (tr : list event) :
  cfg !! "global_train_batch_size" = Some gbs →
  cfg !! "device_train_microbatch_size" = Some dms →
  update_batch_size_info w cfg tr =
    match calculate_batch_size_info w gbs dms tr with
    | (tr', Ok (dbs, m, ga)) => (tr', Ok (updated_cfg w cfg dbs m ga))
    | (tr', Raise e) => (tr', Raise e)
    end.
Proof.
  intros Hg Hm. unfold update_batch_size_info, updated_cfg.
  step. rewrite (getattr_Some _ _ _ _ Hg).
  step. rewrite (getattr_Some _ _ _ _ Hm).
  step. destruct (calculate_batch_size_info w gbs dms tr) as [tr' [[[dbs m] ga]|e]]; [|done].
  rewrite !lookup_insert_ne by done.
  destruct (cfg !! "device_eval_batch_size"); [done|].
  step. rewrite (getattr_Some _ "device_train_microbatch_size" m) by by simplify_map_eq.
  destruct (py_eq_str m "auto"); [done|].
  step. by rewrite (getattr_Some _ "device_train_microbatch_size" m) by by simplify_map_eq.
Qed.

(** A successful update comes from a successful partition. *)
Lemma update_inv (w : Z) (cfg cfg' : gmap string value) (tr tr' : list event) :
  update_batch_size_info w cfg tr = (tr', Ok cfg') →
  ∃ gbs dms dbs m ga,
    cfg !! "global_train_batch_size" = Some gbs
    ∧ cfg !! "device_train_microbatch_size" = Some dms
    ∧ calculate_batch_size_info w gbs dms tr = (tr', Ok (dbs, m, ga))
    ∧ cfg' = updated_cfg w cfg dbs m ga.
Proof.
  intros Hrun.
  destruct (cfg !! "global_train_batch_size") as [gbs|] eqn:Hg.
  2: { unfold update_batch_size_info, getattr in Hrun.
       unfold mbind at 1, M_bind at 1 in Hrun. by rewrite Hg in Hrun. }
  destruct (cfg !! "device_train_microbatch_size") as [dms|] eqn:Hm.
  2: { unfold update_batch_size_info, getattr in Hrun.
       unfold mbind at 1, M_bind at 1 in Hrun. rewrite Hg in Hrun.
       unfold mret at 1, M_ret at 1 in Hrun.
       unfold mbind at 1, M_bind at 1 in Hrun. by rewrite Hm in Hrun. }
  rewrite (update_run w cfg gbs dms) in Hrun by done.
  destruct (calculate_batch_size_info w gbs dms tr) as [tr1 [[[dbs m] ga]|e]] eqn:Hplan;
    [|done].
  injection Hrun as <- <-. by exists gbs, dms, dbs, m, ga.
Qed.

(** X6. A successful [update_batch_size_info] writes [n_gpus] (the world
    size), [device_train_batch_size] (whose product with the world size is
    the global batch size), the microbatch size, the factor and the
    evaluation batch size, and leaves every other key of the configuration
    as it was. *)
Theorem update_frame (w : Z) (cfg cfg' : gmap string value) (tr tr' : list event) :
  update_batch_size_info w cfg tr = (tr', Ok cfg') →
  (∀ key, key ∉ batch_keys → cfg' !! key = cfg !! key)
  ∧ cfg' !! "n_gpus" = Some (VInt w)
  ∧ ∃ gbs g dbs, cfg' !! "global_train_batch_size" = Some gbs ∧ as_int gbs = Some g
      ∧ cfg' !! "device_train_batch_size" = Some (VInt dbs) ∧ dbs * w = g.
Proof.
  intros Hrun.
  apply update_inv in Hrun as (gbs & dms & dbs & m & ga & Hg & Hm & Hplan & ->).
  assert (∀ key, key ∉ batch_keys → updated_cfg w cfg dbs m ga !! key = cfg !! key) as Hframe.
  { intros key Hkey. unfold batch_keys in Hkey.
    rewrite !not_elem_of_cons in Hkey. destruct Hkey as (?&?&?&?&?&_).
    unfold updated_cfg. destruct (cfg !! "device_eval_batch_size");
      by rewrite !lookup_insert_ne by done. }
  split; [done|]. split.
  - unfold updated_cfg. destruct (cfg !! "device_eval_batch_size"); by simplify_map_eq.
  - rewrite calculate_cases in Hplan.
    destruct (as_int gbs) as [g|] eqn:Hint; [|done].
    destruct (Z.eqb_spec w 0) as [|Hw]; [done|].
    destruct (Z.eqb_spec (g mod w) 0) as [Hdiv|]; simpl in Hplan; [|done].
    assert (dbs = g / w) as ->.
    { destruct (py_eq_str dms "auto"); [congruence|].
      destruct (as_int dms) as [k|]; [|done].
      destruct (k >? g / w).
      - destruct (g / w =? 0); congruence.
      - destruct (k =? 0); congruence. }
    exists gbs, g, (g / w). split; [|split; [done|split]].
    + rewrite Hframe; [done|]. unfold batch_keys.
      repeat (apply not_elem_of_cons; split; [done|]). apply not_elem_of_nil.
    + unfold updated_cfg. destruct (cfg !! "device_eval_batch_size"); by simplify_map_eq.
    + pose proof (Z.div_mod g w Hw). lia.
Qed.

Lemma update_frame_witness :
  (∀ key, key ∉ batch_keys →
     updated_cfg 8 (sample_cfg (VInt 64)) 128 (VInt 64) (VInt 2) !! key
     = sample_cfg (VInt 64) !! key)
  ∧ updated_cfg 8 (sample_cfg (VInt 64)) 128 (VInt 64) (VInt 2) !! "n_gpus" = Some (VInt 8).
Proof.
  destruct (update_frame 8 (sample_cfg (VInt 64))
              (updated_cfg 8 (sample_cfg (VInt 64)) 128 (VInt 64) (VInt 2)) [] [])
    as (Hframe & Hgpus & _); [vm_compute; reflexivity|].
  split; [exact Hframe | exact Hgpus].
Defined.

(** X7. On a configuration that has the two sizes, [update_batch_size_info]
    raises exactly when the partition raises: the same exception after
    the same output, and no configuration is returned. *)
Theorem update_fails_as_partition (w : Z) (cfg : gmap string value) (gbs dms : value)
    (tr tr' : list event) (e : exn) :
  cfg !! "global_train_batch_size" = Some gbs →
  cfg !! "device_train_microbatch_size" = Some dms →
  update_batch_size_info w cfg tr = (tr', Raise e)
  ↔ calculate_batch_size_info w gbs dms tr = (tr', Raise e).
Proof.
  intros Hg Hm. rewrite (update_run w cfg gbs dms) by done.
  destruct (calculate_batch_size_info w gbs dms tr) as [tr1 [[[dbs m] ga]|e1]].
  - split; intros H; discriminate H.
  - split; intros [= -> ->]; reflexivity.
Qed.

Lemma update_fails_as_partition_witness :
  update_batch_size_info 3 (sample_cfg (VInt 64)) [] =
    ([], Raise (ValueError (not_divisible_msg (VInt 1024) 3))).
Proof.
  apply (update_fails_as_partition 3 (sample_cfg (VInt 64)) (VInt 1024) (VInt 64) [] []);
    by vm_compute.
Defined.

(** X8. [update_batch_size_info] is idempotent: on the configuration it
    returned it prints nothing and returns that configuration again. *)
Theorem update_idempotent (w : Z) (cfg cfg' : gmap string value) (tr tr' tr2 : list event) :
  update_batch_size_info w cfg tr = (tr', Ok cfg') →
  update_batch_size_info w cfg' tr2 = (tr2, Ok cfg').
Proof.
  intros Hrun.
  apply update_inv in Hrun as (gbs & dms & dbs & m & ga & Hg & Hm & Hplan & ->).
  set (cfg' := updated_cfg w cfg dbs m ga).
  assert (cfg' !! "global_train_batch_size" = Some gbs) as Hg'.
  { unfold cfg', updated_cfg. destruct (cfg !! "device_eval_batch_size"); by simplify_map_eq. }
  assert (cfg' !! "device_train_microbatch_size" = Some m) as Hm'.
  { unfold cfg', updated_cfg. destruct (cfg !! "device_eval_batch_size"); by simplify_map_eq. }
  assert (cfg' !! "n_gpus" = Some (VInt w)) as Hn.
  { unfold cfg', updated_cfg. destruct (cfg !! "device_eval_batch_size"); by simplify_map_eq. }
  assert (cfg' !! "device_train_batch_size" = Some (VInt dbs)) as Hb.
  { unfold cfg', updated_cfg. destruct (cfg !! "device_eval_batch_size"); by simplify_map_eq. }
  assert (cfg' !! "device_train_grad_accum" = Some ga) as Ha.
  { unfold cfg', updated_cfg. destruct (cfg !! "device_eval_batch_size"); by simplify_map_eq. }
  assert (is_Some (cfg' !! "device_eval_batch_size")) as [v Hv].
  { unfold cfg', updated_cfg. destruct (cfg !! "device_eval_batch_size") eqn:E.
    - rewrite !lookup_insert_ne by done. by rewrite E.
    - rewrite lookup_insert_eq. by eexists. }
  rewrite (update_run w cfg' gbs m) by done.
  rewrite (calculate_stable _ _ _ _ _ tr2 _ _ _ Hplan).
  do 2 f_equal. unfold updated_cfg at 1. rewrite Hv.
  rewrite (insert_id cfg' "n_gpus") by done.
  rewrite (insert_id cfg' "device_train_batch_size") by done.
  rewrite (insert_id cfg' "device_train_microbatch_size") by done.
  by rewrite (insert_id cfg' "device_train_grad_accum") by done.
Qed.

Lemma update_idempotent_witness :
  update_batch_size_info 8 (updated_cfg 8 (sample_cfg (VInt 256)) 128 (VInt 128) (VInt 1)) [] =
    ([], Ok (updated_cfg 8 (sample_cfg (VInt 256)) 128 (VInt 128) (VInt 1))).
Proof.
  apply (update_idempotent 8 (sample_cfg (VInt 256))
           (updated_cfg 8 (sample_cfg (VInt 256)) 128 (VInt 128) (VInt 1)) []
           [Printed (clamp_warning (VInt 256) 128)]).
  vm_compute; reflexivity.
Defined.

(** X9. When the evaluation batch size was not configured, the one that
    [update_batch_size_info] sets is an integer, never the ["auto"]
    sentinel; and if the configured microbatch size is ["auto"] or a
    positive integer and the device batch size is positive, it lies
    between 1 and the device batch size. *)
Theorem update_eval_batch_size_int (w : Z) (cfg cfg' : gmap string value)
    (tr tr' : list event) :
  update_batch_size_info w cfg tr = (tr', Ok cfg') →
  cfg !! "device_eval_batch_size" = None →
  ∃ v n, cfg' !! "device_eval_batch_size" = Some v ∧ as_int v = Some n
    ∧ ∀ dms dbs,
        cfg !! "device_train_microbatch_size" = Some dms →
        cfg' !! "device_train_batch_size" = Some (VInt dbs) → 0 < dbs →
        (dms = VStr "auto" ∨ ∃ k, as_int dms = Some k ∧ 0 < k) →
        1 ≤ n ≤ dbs.
Proof.
  intros Hrun Hunset.
  apply update_inv in Hrun as (gbs & dms & dbs & m & ga & Hg & Hm & Hplan & ->).
  assert (updated_cfg w cfg dbs m ga !! "device_train_batch_size" = Some (VInt dbs)) as Hb.
  { unfold updated_cfg. rewrite Hunset. by simplify_map_eq. }
  assert (updated_cfg w cfg dbs m ga !! "device_eval_batch_size"
          = Some (if py_eq_str m "auto" then VInt 1 else m)) as Hev.
  { unfold updated_cfg. rewrite Hunset. by simplify_map_eq. }
  rewrite Hev, Hb.
  destruct (calculate_microbatch _ _ _ _ _ _ _ _ Hplan) as [[-> ->]|(k & Hk & Hmk & Hna)].
  - exists (VInt 1), 1. split; [done|]. split; [done|]. intros; lia.
  - rewrite Hna. exists m, (Z.min k dbs). split; [done|]. split; [done|].
    intros dms' dbs' Hdms' [= <-] Hpos Hcase.
    rewrite Hm in Hdms'. injection Hdms' as <-.
    destruct Hcase as [->|(k' & Hk' & Hpos')]; [done|]. simplify_eq. lia.
Qed.

Lemma update_eval_batch_size_int_witness :
  ∃ v n, updated_cfg 8 (sample_cfg (VInt 256)) 128 (VInt 128) (VInt 1)
           !! "device_eval_batch_size" = Some v
    ∧ as_int v = Some n.
Proof.
  destruct (update_eval_batch_size_int 8 (sample_cfg (VInt 256))
              (updated_cfg 8 (sample_cfg (VInt 256)) 128 (VInt 128) (VInt 1)) []
              [Printed (clamp_warning (VInt 256) 128)] ltac:(vm_compute; reflexivity) eq_refl)
    as (v & n & Hv & Hn & _).
  exists v, n. split; [exact Hv | exact Hn].
Defined.

(** ** Evaluator assembly, task by task *)

Section AssemblySteps.
Variable ext : externals.
Variable tokenizer : Tokenizer.
Variable batch_size : Z.
Variable seqlen : value.

Local Abbreviation dataloader_of := (task_dataloader ext tokenizer batch_size seqlen).
Local Abbreviation call_of := (task_call tokenizer batch_size seqlen).

(** One round of the loop of [get_evaluators]. *)
Lemma loop_cons icl_task cfg evals tr :
  get_evaluators_loop ext (icl_task :: cfg) tokenizer batch_size seqlen evals tr =
    if truthy (assert_expr icl_task) then
      match dataloader_of icl_task with
      | Ok dl =>
          match py_list (dict_get icl_task "metric_names" VNone) (tr ++ [call_of icl_task]) with
          | (tr2, Ok names) =>
              get_evaluators_loop ext cfg tokenizer batch_size seqlen
                (evals ++ [{| label := dict_get icl_task "name" VNone;
                              dataloader := dl; metric_names := names |}]) tr2
          | (tr2, Raise e) => (tr2, Raise e)
          end
      | Raise e => (tr ++ [call_of icl_task], Raise e)
      end
    else (tr, Raise AssertionError).
Proof.
  cbn [get_evaluators_loop]. unfold mbind at 1, M_bind at 1, py_assert.
  fold (assert_expr icl_task). destruct (truthy (assert_expr icl_task)); [|done].
  unfold mret at 1, M_ret at 1.
  unfold mbind at 1, M_bind at 1, external, task_dataloader, task_call.
  rewrite py_max4_max.
  destruct (get_lm_task_dataloader ext _ _ _ _ _) as [dl|e]; [|done].
  unfold mbind at 1, M_bind at 1. reflexivity.
Qed.

Lemma py_list_trace v tr tr' o : py_list v tr = (tr', o) → tr' = tr.
Proof. destruct v; simpl; unfold mret, M_ret, raise; congruence. Qed.

Lemma loop_shape cfg evals tr tr' result :
  get_evaluators_loop ext cfg tokenizer batch_size seqlen evals tr = (tr', Ok result) →
  ∃ new, result = evals ++ new ∧ tr' = tr ++ (call_of <$> cfg)
    ∧ Forall2 (λ icl_task ev,
                 truthy (assert_expr icl_task) = true
                 ∧ label ev = dict_get icl_task "name" VNone
                 ∧ dataloader_of icl_task = Ok (dataloader ev)) cfg new.
Proof.
  revert evals tr. induction cfg as [|icl_task cfg IH]; intros evals tr.
  - intros [= <- <-]. exists []. by rewrite !app_nil_r.
  - rewrite loop_cons.
    destruct (truthy (assert_expr icl_task)) eqn:Htrue; [|done].
    destruct (dataloader_of icl_task) as [dl|e] eqn:Hdl; [|done].
    destruct (py_list _ _) as [tr2 [names|e]] eqn:Hlist; [|done].
    apply py_list_trace in Hlist as ->.
    intros (new & -> & -> & Hall)%IH.
    eexists (_ :: new). rewrite <- !app_assoc. split; [done|]. split; [done|].
    by constructor.
Qed.

(** X10. Whenever [get_evaluators] returns, it returns one evaluator per
    task, in the order of the tasks; the only calls it made are the
    data-source constructions, one per task in that order, each with batch
    size [max 4 batch_size]; and the evaluator at each position has the
    task's [name] as label and the data source built for that task. *)
Theorem get_evaluators_shape cfg tr tr' evals :
  get_evaluators ext cfg tokenizer batch_size seqlen tr = (tr', Ok evals) →
  length evals = length cfg
  ∧ tr' = tr ++ (call_of <$> cfg)
  ∧ ∀ i icl_task, cfg !! i = Some icl_task →
      ∃ ev, evals !! i = Some ev
        ∧ label ev = dict_get icl_task "name" VNone
        ∧ dataloader_of icl_task = Ok (dataloader ev).
Proof.
  unfold get_evaluators. intros (new & -> & -> & Hall)%loop_shape. simpl.
  split; [symmetry; by eapply Forall2_length|]. split; [done|].
  intros i icl_task Hi.
  destruct (Forall2_lookup_l _ _ _ _ _ Hall Hi) as (ev & Hev & _ & Hlabel & Hdl).
  by exists ev.
Qed.

(** X11. A [metric_names] that is not a list.  A non-empty string is
    split into its characters, each becoming a metric name; a non-zero
    integer passes the [assert], the data source is built, and then
    [list(...)] raises [TypeError]. *)
Theorem metric_names_not_a_list icl_task tr dl :
  truthy (dict_get icl_task "dataset_uri" VNone) = true →
  truthy (dict_get icl_task "name" VNone) = true →
  dataloader_of icl_task = Ok dl →
  (∀ s, icl_task !! "metric_names" = Some (VStr s) → s ≠ "" →
     get_evaluators ext [icl_task] tokenizer batch_size seqlen tr =
       (tr ++ [call_of icl_task],
        Ok [{| label := dict_get icl_task "name" VNone; dataloader := dl;
               metric_names := (λ c, VStr (String c "")) <$> list_ascii_of_string s |}]))
  ∧ (∀ n, icl_task !! "metric_names" = Some (VInt n) → n ≠ 0 →
       get_evaluators ext [icl_task] tokenizer batch_size seqlen tr =
         (tr ++ [call_of icl_task], Raise TypeError)).
Proof.
  intros Huri Hname Hdl.
  split; [intros s Hm Hs | intros n Hm Hn];
    unfold get_evaluators; rewrite loop_cons;
    unfold assert_expr; rewrite !truthy_py_and, Huri, Hname;
    unfold dict_get at 1; rewrite Hm; simpl.
  - rewrite bool_decide_false by done. simpl. rewrite Hdl.
    unfold dict_get at 1. by rewrite Hm.
  - destruct (Z.eqb_spec n 0); [done|]. simpl. rewrite Hdl.
    unfold dict_get at 1. by rewrite Hm.
Qed.

(** X12. [get_evaluators] has no handler: if the data source of a task
    cannot be built, the assembly stops with the constructor's exception,
    after the tasks before it and that one construction attempt. *)
Theorem data_source_error_propagates pre icl_task post tr tr' evals e :
  get_evaluators ext pre tokenizer batch_size seqlen tr = (tr', Ok evals) →
  truthy (assert_expr icl_task) = true →
  dataloader_of icl_task = Raise e →
  get_evaluators ext (pre ++ icl_task :: post) tokenizer batch_size seqlen tr =
    (tr' ++ [call_of icl_task], Raise e).
Proof.
  unfold get_evaluators. intros Hpre Htrue Hdl.
  rewrite loop_app, Hpre, loop_cons, Htrue. by rewrite Hdl.
Qed.

End AssemblySteps.

(** X13. Below the floor the batch size does not matter: with any
    [batch_size] of at most 4, [get_evaluators] does exactly what it does
    with 4. *)
Theorem batch_size_floor (ext : externals) (tokenizer : Tokenizer) (batch_size : Z)
    (seqlen : value) (cfg : list (gmap string value)) (tr : list event) :
  batch_size ≤ 4 →
  get_evaluators ext cfg tokenizer batch_size seqlen tr =
    get_evaluators ext cfg tokenizer 4 seqlen tr.
Proof.
  intros Hle. unfold get_evaluators. generalize (@nil Evaluator) as evals. revert tr.
  induction cfg as [|icl_task cfg IH]; intros tr evals; [done|].
  rewrite !loop_cons. unfold task_dataloader, task_call.
  replace (Z.max 4 batch_size) with (Z.max 4 4) by lia.
  destruct (truthy (assert_expr icl_task)); [|done].
  destruct (get_lm_task_dataloader ext _ _ _ _ _); [|done].
  destruct (py_list _ _) as [tr2 [names|e]]; [|done].
  apply IH.
Qed.

Lemma get_evaluators_shape_witness :
  length [ {| label := VStr "lambada"; dataloader := 12%N;
              metric_names := [VStr "acc"; VStr "loss"] |};
           {| label := VStr "piqa"; dataloader := 12%N; metric_names := [VStr "acc"] |} ]
  = length [sample_task "s3://lambada" "lambada" ["acc"; "loss"];
            sample_task "s3://piqa" "piqa" ["acc"]].
Proof.
  refine (proj1 (get_evaluators_shape sample_externals sample_tokenizer 8 (VInt 2048)
                   [sample_task "s3://lambada" "lambada" ["acc"; "loss"];
                    sample_task "s3://piqa" "piqa" ["acc"]] []
                   (task_call sample_tokenizer 8 (VInt 2048) <$>
                      [sample_task "s3://lambada" "lambada" ["acc"; "loss"];
                       sample_task "s3://piqa" "piqa" ["acc"]]) _ _)).
  vm_compute; reflexivity.
Defined.

Lemma metric_names_not_a_list_witness :
  get_evaluators sample_externals [sample_task_with (VStr "acc")] sample_tokenizer 8
    (VInt 2048) [] =
    ([] ++ [task_call sample_tokenizer 8 (VInt 2048) (sample_task_with (VStr "acc"))],
     Ok [{| label := dict_get (sample_task_with (VStr "acc")) "name" VNone;
            dataloader := 12%N;
            metric_names := (λ c, VStr (String c "")) <$> list_ascii_of_string "acc" |}])
  ∧ get_evaluators sample_externals [sample_task_with (VInt 5)] sample_tokenizer 8
      (VInt 2048) [] =
      ([] ++ [task_call sample_tokenizer 8 (VInt 2048) (sample_task_with (VInt 5))],
       Raise TypeError).
Proof.
  split.
  - apply (proj1 (metric_names_not_a_list sample_externals sample_tokenizer 8 (VInt 2048)
                    (sample_task_with (VStr "acc")) [] 12%N eq_refl eq_refl eq_refl)
               "acc"); [reflexivity | discriminate].
  - apply (proj2 (metric_names_not_a_list sample_externals sample_tokenizer 8 (VInt 2048)
                    (sample_task_with (VInt 5)) [] 12%N eq_refl eq_refl eq_refl)
               5); [reflexivity | discriminate].
Defined.

Lemma data_source_error_propagates_witness :
  get_evaluators sample_externals_no_data
    ([] ++ sample_task "s3://lambada" "lambada" ["acc"] :: []) sample_tokenizer 8
    (VInt 2048) [] =
    ([] ++ [task_call sample_tokenizer 8 (VInt 2048)
              (sample_task "s3://lambada" "lambada" ["acc"])],
     Raise (External "dataset not found")).
Proof.
  apply (data_source_error_propagates sample_externals_no_data sample_tokenizer 8 (VInt 2048)
           [] (sample_task "s3://lambada" "lambada" ["acc"]) [] [] [] []
           (External "dataset not found")); reflexivity.
Defined.

Lemma batch_size_floor_witness :
  get_evaluators sample_externals [sample_task "s3://lambada" "lambada" ["acc"]]
    sample_tokenizer 1 (VInt 2048) [] =
  get_evaluators sample_externals [sample_task "s3://lambada" "lambada" ["acc"]]
    sample_tokenizer 4 (VInt 2048) [].
Proof. apply batch_size_floor. lia. Defined.

(** ** The guarded builders *)

(** [build_composer_model] on a configuration that has a name. *)
Lemma build_composer_model_run (ext : externals) (cfg : gmap string value) (name : string)
    (tr : list event) :
  cfg !! "name" = Some (VStr name) →
  build_composer_model ext cfg tr =
    match COMPOSER_MODEL_REGISTRY ext !! name with
    | Some builder =>
        (tr ++ [Called "COMPOSER_MODEL_REGISTRY[cfg.name]" (map_to_list cfg)],
         match builder cfg with
         | Ok o => Ok o
         | Raise _ => Raise (ValueError ("Not sure how to build model with name=" +:+ name))
         end)
    | None => (tr, Raise (ValueError ("Not sure how to build model with name=" +:+ name)))
    end.
Proof.
  intros Hname. unfold build_composer_model, try_except.
  step. rewrite (getattr_Some _ _ _ _ Hname); cbv beta iota.
  step. unfold getitem.
  destruct (COMPOSER_MODEL_REGISTRY ext !! name) as [builder|].
  - unfold mret at 1, M_ret at 1, external. cbv beta iota.
    destruct (builder cfg); [done|].
    step. by rewrite (getattr_Some _ _ _ _ Hname).
  - unfold raise at 1. step. by rewrite (getattr_Some _ _ _ _ Hname).
Qed.

(** X14. The two builders with a [try] raise nothing but their own
    [ValueError].  [build_composer_model], on a configuration with a name,
    returns an object exactly when the name has a builder in the table and
    that builder returns it; in every other case, unknown name or failing
    builder alike, it raises the same [ValueError] naming the model.
    [build_dataloader] raises only its [ValueError] showing the
    configuration. *)
Theorem guarded_builders (ext : externals) (cfg : gmap string value) (name : string)
    (tr tr' : list event) :
  cfg !! "name" = Some (VStr name) →
  (∀ o, build_composer_model ext cfg tr = (tr', Ok o)
        ↔ ∃ builder, COMPOSER_MODEL_REGISTRY ext !! name = Some builder
            ∧ builder cfg = Ok o
            ∧ tr' = tr ++ [Called "COMPOSER_MODEL_REGISTRY[cfg.name]" (map_to_list cfg)])
  ∧ (∀ e, build_composer_model ext cfg tr = (tr', Raise e) →
          e = ValueError ("Not sure how to build model with name=" +:+ name))
  ∧ (∀ loader_cfg device_batch_size e,
       build_dataloader ext loader_cfg device_batch_size tr = (tr', Raise e) →
       e = ValueError ("Not sure how to build dataloader with config: "
                       +:+ str_of_cfg ext loader_cfg)).
Proof.
  intros Hname. rewrite (build_composer_model_run ext cfg name tr Hname).
  split; [|split].
  - intros o. destruct (COMPOSER_MODEL_REGISTRY ext !! name) as [builder|].
    + split.
      * destruct (builder cfg) as [o'|] eqn:Hb; [|done].
        intros [= <- <-]. by exists builder.
      * intros (b & [= <-] & Hb & ->). by rewrite Hb.
    + split; [done|]. by intros (b & ? & _).
  - intros e. destruct (COMPOSER_MODEL_REGISTRY ext !! name) as [builder|].
    + destruct (builder cfg); [done|]. congruence.
    + congruence.
  - intros loader_cfg dbs e. unfold build_dataloader, try_except, external, raise.
    destruct (build_text_dataloader ext loader_cfg dbs); [done|]. congruence.
Qed.

Lemma guarded_builders_witness :
  External "d_model is missing" ≠ ValueError ("Not sure how to build model with name=" +:+ "mosaic_gpt")
  ∧ ValueError "Not sure how to build model with name=mosaic_gpt" =
      ValueError ("Not sure how to build model with name=" +:+ "mosaic_gpt").
Proof.
  split; [discriminate|].
  refine (proj1 (proj2 (guarded_builders sample_externals (<["name" := VStr "mosaic_gpt"]> ∅)
                          "mosaic_gpt" []
                          [Called "COMPOSER_MODEL_REGISTRY[cfg.name]"
                             [("name", VStr "mosaic_gpt")]] _)) _ _);
    vm_compute; reflexivity.
Defined.

(** ** The component lists *)

Lemma build_each_cons build name kwargs items tr :
  build_each build ((name, kwargs) :: items) tr =
    match build name kwargs tr with
    | (tr1, Ok o) =>
        match build_each build items tr1 with
        | (tr2, Ok objs) => (tr2, Ok (o :: objs))
        | (tr2, Raise e) => (tr2, Raise e)
        end
    | (tr1, Raise e) => (tr1, Raise e)
    end.
Proof.
  cbn [build_each]. unfold mbind, M_bind, mret, M_ret.
  destruct (build name kwargs tr) as [tr1 [o|e]]; [|done].
  by destruct (build_each build items tr1) as [tr2 [objs|e]].
Qed.

Lemma build_each_app build pre post tr :
  build_each build (pre ++ post) tr =
    match build_each build pre tr with
    | (tr', Ok objs) =>
        match build_each build post tr' with
        | (tr'', Ok objs') => (tr'', Ok (objs ++ objs'))
        | (tr'', Raise e) => (tr'', Raise e)
        end
    | (tr', Raise e) => (tr', Raise e)
    end.
Proof.
  revert tr. induction pre as [|[name kwargs] pre IH]; intros tr.
  - simpl. unfold mret, M_ret.
    by destruct (build_each build post tr) as [tr' [objs|e]].
  - change (((name, kwargs) :: pre) ++ post) with ((name, kwargs) :: (pre ++ post)).
    rewrite !build_each_cons.
    destruct (build name kwargs tr) as [tr1 [o|e]]; [|done].
    rewrite IH.
    destruct (build_each build pre tr1) as [tr2 [objs|e]]; [|done].
    by destruct (build_each build post tr2) as [tr3 [objs'|e]].
Qed.

Lemma build_each_stops build name kwargs post tr tr' e :
  build name kwargs tr = (tr', Raise e) →
  build_each build ((name, kwargs) :: post) tr = (tr', Raise e).
Proof. intros H. by rewrite build_each_cons, H. Qed.

Lemma build_each_built build items tr tr' objs :
  build_each build items tr = (tr', Ok objs) →
  length objs = length items
  ∧ Forall (λ item, ∃ t t' o, build item.1 item.2 t = (t', Ok o)) items.
Proof.
  revert tr objs. induction items as [|[name kwargs] items IH]; intros tr objs.
  - intros [= <- <-]. by split.
  - rewrite build_each_cons.
    destruct (build name kwargs tr) as [tr1 [o|e]] eqn:Hb; [|done].
    destruct (build_each build items tr1) as [tr2 [os|e]] eqn:Hrest; [|done].
    intros [= <- <-]. apply IH in Hrest as [Hlen Hall].
    split; [simpl; by rewrite Hlen|]. constructor; [|done]. by exists tr, tr1, o.
Qed.

(** X15. The lists of loggers, callbacks and algorithms are built in the
    order of declaration and stop at the first name that has no builder:
    the [ValueError] names it, the components declared before it have
    been constructed (the trace is theirs) and none after it is. *)
Theorem component_lists_stop_at_unknown_name (ext : externals)
    (pre post : list (string * gmap string value)) (name : string)
    (kwargs : gmap string value) (tr tr' : list event) (objs : list obj) :
  (main_loggers ext pre tr = (tr', Ok objs) → registered ext Logger name = false →
     main_loggers ext (pre ++ (name, kwargs) :: post) tr =
       (tr', Raise (ValueError ("Not sure how to build logger: " +:+ name))))
  ∧ (main_callbacks ext pre tr = (tr', Ok objs) → registered ext Callback name = false →
       main_callbacks ext (pre ++ (name, kwargs) :: post) tr =
         (tr', Raise (ValueError ("Not sure how to build callback: " +:+ name))))
  ∧ (main_algorithms ext pre tr = (tr', Ok objs) → registered ext Algorithm name = false →
       main_algorithms ext (pre ++ (name, kwargs) :: post) tr =
         (tr', Raise (ValueError ("Not sure how to build algorithm: " +:+ name)))).
Proof.
  unfold main_loggers, main_callbacks, main_algorithms.
  split; [|split]; intros Hpre Hreg; rewrite build_each_app, Hpre;
    erewrite build_each_stops; try reflexivity; simpl in Hreg.
  - unfold build_logger. by rewrite Hreg.
  - repeat (apply orb_false_iff in Hreg as [Hreg ?]).
    unfold build_callback. by rewrite Hreg, H1, H0, H.
  - unfold build_algorithm. by rewrite Hreg.
Qed.

Lemma component_lists_stop_at_unknown_name_witness :
  main_loggers sample_externals ([("wandb", ∅)] ++ ("tensorboard", ∅) :: [("wandb", ∅)]) [] =
    ([Called "WandBLogger" []],
     Raise (ValueError ("Not sure how to build logger: " +:+ "tensorboard"))).
Proof.
  apply (proj1 (component_lists_stop_at_unknown_name sample_externals [("wandb", ∅)]
                  [("wandb", ∅)] "tensorboard" ∅ [] [Called "WandBLogger" []] [1%N]));
    vm_compute; reflexivity.
Defined.

(** X16. When a list of loggers, callbacks or algorithms is built, there
    is one object per declared entry and every declared name has a
    builder. *)
Theorem component_lists_built (ext : externals) (items : list (string * gmap string value))
    (tr tr' : list event) (objs : list obj) :
  (main_loggers ext items tr = (tr', Ok objs) →
     length objs = length items ∧ Forall (λ item, registered ext Logger item.1 = true) items)
  ∧ (main_callbacks ext items tr = (tr', Ok objs) →
       length objs = length items
       ∧ Forall (λ item, registered ext Callback item.1 = true) items)
  ∧ (main_algorithms ext items tr = (tr', Ok objs) →
       length objs = length items
       ∧ Forall (λ item, registered ext Algorithm item.1 = true) items).
Proof.
  unfold main_loggers, main_callbacks, main_algorithms.
  split; [|split]; intros [Hlen Hall]%build_each_built; (split; [done|]);
    eapply Forall_impl; [exact Hall| |exact Hall| |exact Hall|];
    intros [name kwargs] (t & t' & o & Hb); simpl in *.
  - destruct (registered ext Logger name) eqn:Hreg; [done|].
    destruct (resolve_unknown_name ext 0%N Logger name kwargs t ltac:(done) Hreg)
      as (msg & Hraise & _). simpl in Hraise. congruence.
  - destruct (registered ext Callback name) eqn:Hreg; [done|].
    destruct (resolve_unknown_name ext 0%N Callback name kwargs t ltac:(done) Hreg)
      as (msg & Hraise & _). simpl in Hraise. congruence.
  - destruct (registered ext Algorithm name) eqn:Hreg; [done|].
    destruct (resolve_unknown_name ext 0%N Algorithm name kwargs t ltac:(done) Hreg)
      as (msg & Hraise & _). simpl in Hraise. congruence.
Qed.

Lemma component_lists_built_witness :
  length [3%N; 4%N] = length [("memory_monitor", (∅ : gmap string value)); ("speed_monitor", ∅)]
  ∧ Forall (λ item, registered sample_externals Callback item.1 = true)
      [("memory_monitor", (∅ : gmap string value)); ("speed_monitor", ∅)].
Proof.
  apply (proj1 (proj2 (component_lists_built sample_externals
                         [("memory_monitor", ∅); ("speed_monitor", ∅)] []
                         [Called "MemoryMonitor" [];
                          Called "SpeedMonitor" [("window_size", VInt 1)]] [3%N; 4%N]))).
  vm_compute; reflexivity.
Defined.

(** X17. [build_callback] reads nothing of the configuration fragment
    but [window_size] and [log_optimizer_metrics]: two fragments that agree
    on these two keys give the same result for every name, whatever else
    they hold. *)
Theorem build_callback_reads_two_keys (ext : externals) (name : string)
    (kwargs kwargs' : gmap string value) (tr : list event) :
  kwargs !! "window_size" = kwargs' !! "window_size" →
  kwargs !! "log_optimizer_metrics" = kwargs' !! "log_optimizer_metrics" →
  build_callback ext name kwargs tr = build_callback ext name kwargs' tr.
Proof.
  intros Hw Hl. unfold build_callback, dict_get. by rewrite Hw, Hl.
Qed.

Lemma build_callback_reads_two_keys_witness :
  build_callback sample_externals "speed_monitor"
    (<["window_size" := VInt 10]> (<["gpu_flops" := VInt 312]> ∅)) [] =
  build_callback sample_externals "speed_monitor" (<["window_size" := VInt 10]> ∅) [].
Proof. apply build_callback_reads_two_keys; vm_compute; reflexivity. Defined.

Lemma getattr_agree (cfg cfg' : gmap string value) key tr :
  cfg !! key = cfg' !! key → getattr cfg key tr = getattr cfg' key tr.
Proof. intros H. unfold getattr. by rewrite H. Qed.

(** X18. [build_optimizer] reads [name], [lr], [betas], [eps] and
    [weight_decay] of its configuration and nothing else, and
    [build_scheduler] reads [name], [t_warmup] and [alpha_f] and nothing
    else: configurations that agree on these keys give the same result. *)
Theorem optimizer_scheduler_read_named_keys (ext : externals)
    (cfg cfg' : gmap string value) (model : obj) (tr : list event) :
  cfg !! "name" = cfg' !! "name" →
  (cfg !! "lr" = cfg' !! "lr" → cfg !! "betas" = cfg' !! "betas" →
   cfg !! "eps" = cfg' !! "eps" → cfg !! "weight_decay" = cfg' !! "weight_decay" →
   build_optimizer ext cfg model tr = build_optimizer ext cfg' model tr)
  ∧ (cfg !! "t_warmup" = cfg' !! "t_warmup" → cfg !! "alpha_f" = cfg' !! "alpha_f" →
     build_scheduler ext cfg tr = build_scheduler ext cfg' tr).
Proof.
  intros Hname. split.
  - intros Hlr Hbetas Heps Hwd. unfold build_optimizer, getattr.
    by rewrite Hname, Hlr, Hbetas, Heps, Hwd.
  - intros Hw Ha. unfold build_scheduler, getattr.
    by rewrite Hname, Hw, Ha.
Qed.

Lemma optimizer_scheduler_read_named_keys_witness :
  build_scheduler sample_externals (<["lr" := VInt 1]> sample_scheduler_cfg) [] =
  build_scheduler sample_externals sample_scheduler_cfg [].
Proof.
  refine (proj2 (optimizer_scheduler_read_named_keys sample_externals _ _ 0%N [] _) _ _);
    vm_compute; reflexivity.
Defined.
